(** * FocusTube: classification, filtering, focus-mode supervision and
    personalised ranking.

    A shallow embedding of
    - [backend/app/services/ai_classifier.py] (heuristic cascade
      [AIClassifier._fallback_classification]),
    - [backend/app/services/filter_engine.py] ([FilterEngine.check_video]),
    - [backend/app/services/focus_engine.py] ([FocusEngine.activate_mode],
      [_get_locked_mode], [check_time_limit], [lock_session], [unlock_session]),
    - [backend/app/services/personalization.py]
      ([PersonalizationService.get_personalized_ranking]),
    - [backend/app/routers/modes.py] ([PRESET_MODES], [activate_mode]),
    - [backend/app/services/youtube_service.py] ([_parse_duration],
      [_is_short]),
    - [backend/app/services/ai_classifier.py] ([classify_video],
      [_get_cached], [_cache_result], the normalisation of
      [_classify_with_ai]) and [backend/app/models/content_cache.py],
    - [backend/app/routers/feed.py] (the filtering loops of [get_feed] and
      [search_feed]),
    - [backend/app/services/focus_engine.py] ([get_active_mode],
      [get_session_stats]),
    - [backend/app/services/personalization.py] ([get_user_preferences],
      [_analyze_watch_history], [_analyze_feedback]).

    Modelling conventions.
    - Python [str] values are modelled as Rocq [string]s holding their UTF-8
      bytes.  Substring tests ([kw in text]) coincide on UTF-8 encodings with
      the code-point test.  [str.lower] and [str.isupper] are modelled on the
      ASCII letters; other bytes are left unchanged / counted as not upper.
    - Python floats holding classifier scores are modelled as exact
      rationals [Q]; all score constants of the source are decimal literals.
      The re-ranking score of [get_personalized_ranking], whose order
      depends on rounding, is modelled with the primitive IEEE-754 doubles
      of [Floats], which round as Python's floats do.
    - Timestamps ([datetime]) are modelled as integer seconds ([Z]). *)

From Stdlib Require Import String Ascii List Bool ZArith QArith Lia.
From Stdlib Require Import Permutation Sorted Lqa.
From Stdlib Require Floats.
Import ListNotations.

Open Scope string_scope.

(* ------------------------------------------------------------------ *)
(** ** Python string primitives *)

Module Py.

(** [c.isupper()] on ASCII. *)
Definition is_upper (c : ascii) : bool :=
  let n := nat_of_ascii c in (Nat.leb 65 n && Nat.leb n 90)%bool.

(** [c.lower()] on ASCII. *)
Definition lower_char (c : ascii) : ascii :=
  if is_upper c then ascii_of_nat (nat_of_ascii c + 32) else c.

(** [s.lower()]. *)
Fixpoint lower (s : string) : string :=
  match s with
  | EmptyString => EmptyString
  | String c s' => String (lower_char c) (lower s')
  end.

(** [needle in hay]: the empty needle occurs everywhere. *)
Fixpoint contains (needle hay : string) : bool :=
  if prefix needle hay then true
  else match hay with
       | EmptyString => false
       | String _ hay' => contains needle hay'
       end.

(** [s[:n]]. *)
Definition take (n : nat) (s : string) : string := substring 0 n s.

(** [sep.join(xs)]. *)
Fixpoint join (sep : string) (xs : list string) : string :=
  match xs with
  | [] => ""
  | [x] => x
  | x :: xs' => x ++ sep ++ join sep xs'
  end.

(** [x in xs] for a list of strings. *)
Definition mem (x : string) (xs : list string) : bool :=
  existsb (String.eqb x) xs.

(** [sum(1 for c in s if c.isupper())]. *)
Fixpoint count_upper (s : string) : nat :=
  match s with
  | EmptyString => 0
  | String c s' => (if is_upper c then 1 else 0) + count_upper s'
  end.

(** A string literal given by its bytes (the source's non-ASCII literals). *)
Definition of_bytes (bs : list nat) : string :=
  fold_right (fun b s => String (ascii_of_nat b) s) EmptyString bs.

(** [max(a, b)] and [min(a, b)] on scores: Python returns the first
    argument on ties. *)
Definition qmax (a b : Q) : Q := if Qle_bool b a then a else b.
Definition qmin (a b : Q) : Q := if Qle_bool a b then a else b.

(** [a > b] on scores. *)
Definition qgt (a b : Q) : bool := negb (Qle_bool a b).

End Py.

(* ------------------------------------------------------------------ *)
(** ** Video metadata and classification *)

(** The video dict as the classifier and the filter engine read it; every
    [video.get(key, default)] becomes a field holding the value or its
    default. A missing or [None] language is read as the empty string, which
    the filter engine treats like an empty one (both are falsy). *)
Record Video := mkVideo {
  v_id : string;
  v_title : string;
  v_description : string;
  v_tags : list string;
  v_channel_title : string;
  v_duration_seconds : Z;
  v_is_short : bool;
  v_language : string
}.

(** [schemas/video.py: VideoClassification]. *)
Record VideoClassification := mkClassification {
  category : string;
  confidence_score : Q;
  entertainment_score : Q;
  depth_score : Q;
  clickbait_score : Q
}.

Module Classifier.
Import Py.

Definition music_keywords : list string :=
  [ "song"; "music"; "album"; "concert"; "lyrics"; "lyrical"; "audio";
    "official video"; "official audio"; "music video"; "full song";
    "video song"; "vedio song";
    "lofi"; "lo-fi"; "hip hop"; "rap"; "rock"; "pop"; "jazz"; "classical";
    "edm"; "dubstep"; "remix"; "cover"; "acoustic"; "instrumental";
    "tollywood"; "bollywood"; "kollywood"; "sandalwood";
    "telugu"; "hindi"; "tamil"; "kannada"; "malayalam"; "bhojpuri";
    "item song"; "romantic song"; "melody"; "gaana"; "gana";
    "promo song"; "title song"; "theme song"; "trending song";
    "singer"; "vocalist"; "rapper"; "dj"; "producer";
    "beats"; "track"; "playlist"; "mixtape";
    "live performance"; "stage"; "concert"; "mtv"; "spotify"; "gaana" ].

Definition music_channel_indicators : list string :=
  [ "music"; "records"; "audio"; "songs"; "entertainment"; "media";
    "films"; "pictures"; "studios"; "mangavaram"; "lahari"; "aditya";
    "zee"; "t-series"; "sony"; "tips"; "saregama"; "eros" ].

Definition gaming_keywords : list string :=
  [ "gameplay"; "gaming"; "playthrough"; "stream"; "gamer"; "game";
    "walkthrough"; "let's play"; "esports"; "twitch"; "streamer";
    "minecraft"; "fortnite"; "valorant"; "gta"; "cod"; "pubg";
    "elden ring"; "zelda"; "pokemon"; "nintendo"; "playstation"; "xbox";
    "speedrun"; "pro player"; "rank"; "competitive" ].

Definition comedy_keywords : list string :=
  [ "comedy"; "funny"; "laugh"; "humor"; "joke"; "stand up"; "skit";
    "prank"; "roast"; "meme"; "compilation"; "try not to laugh";
    "fails"; "bloopers"; "reaction"; "challenge" ].

Definition general_entertainment : list string :=
  [ "movie"; "film"; "trailer"; "teaser"; "scenes"; "clips";
    "vlog"; "day in"; "haul"; "unboxing"; "reaction";
    "celebrity"; "interview"; "talk show"; "reality"; "drama" ].

Definition education_keywords : list string :=
  [ "tutorial"; "course"; "lecture"; "lesson"; "learn"; "teaching";
    "education"; "educational"; "academy"; "university"; "college";
    "programming"; "coding"; "developer"; "software development";
    "science"; "physics"; "chemistry"; "mathematics"; "biology";
    "history"; "geography"; "economics"; "psychology";
    "certification"; "exam prep"; "study with me"; "study tips" ].

Definition tech_keywords : list string :=
  [ "technology"; "tech review"; "python"; "javascript"; "java";
    "machine learning"; "ai"; "artificial intelligence"; "data science";
    "cloud"; "devops"; "kubernetes"; "docker"; "programming tutorial";
    "code"; "developer"; "engineering"; "computer science" ].

Definition howto_keywords : list string :=
  [ "how to"; "diy"; "tips"; "tricks"; "guide"; "step by step";
    "recipe"; "cooking"; "baking"; "makeup"; "fashion"; "style";
    "workout"; "fitness"; "yoga"; "meditation"; "self improvement" ].

(** The two mis-encoded emoji of the source, as the UTF-8 bytes of their
    code points, and the third one of the punctuation check. *)
Definition emoji_scream : string := of_bytes [195; 176; 197; 184; 203; 156; 194; 177]%nat.
Definition emoji_fire : string := of_bytes [195; 176; 197; 184; 226; 128; 157; 194; 165]%nat.
Definition emoji_red : string := of_bytes [195; 176; 197; 184; 226; 128; 157; 194; 180]%nat.

Definition clickbait_patterns : list string :=
  [ "you won't believe"; "gone wrong"; "shocking"; "exposed";
    "prank"; emoji_scream; emoji_fire; "secret"; "revealed"; "must see";
    "insane"; "crazy"; "epic fail"; "best ever"; "unbelievable" ].

(** [for kw in kws: if kw in text: ...; break]: whether the loop body runs. *)
Definition any_in (kws : list string) (text : string) : bool :=
  existsb (fun kw => contains kw text) kws.

(** The mutable locals of [_fallback_classification]. *)
Record locals := mkLocals {
  l_category : string;
  l_entertainment : Q;
  l_depth : Q
}.

(** One guarded stage [if category == "ENTERTAINMENT": for kw in kws: ...]. *)
Definition stage (kws : list string) (text : string) (cat : string)
    (ent dep : Q) (st : locals) : locals :=
  if String.eqb (l_category st) "ENTERTAINMENT" then
    if any_in kws text then mkLocals cat ent dep else st
  else st.

Definition _fallback_classification (video : Video) : VideoClassification :=
  let title := lower (v_title video) in
  let original_title := v_title video in
  let description := take 500 (lower (v_description video)) in
  let tags := map lower (v_tags video) in
  let channel := lower (v_channel_title video) in
  let duration := v_duration_seconds video in
  let text := title ++ " " ++ join " " tags ++ " " ++ description ++ " " ++ channel in
  let st0 := mkLocals "ENTERTAINMENT" 0.5 0.5 in
  (* PRIORITY 1: music keywords, unguarded *)
  let st1 := if any_in music_keywords text then mkLocals "MUSIC" 0.8 0.2 else st0 in
  (* music channel names *)
  let st2 :=
    if negb (String.eqb (l_category st1) "MUSIC") then
      if any_in music_channel_indicators channel then mkLocals "MUSIC" 0.7 0.3 else st1
    else st1 in
  (* PRIORITY 2: gaming *)
  let st3 := stage gaming_keywords text "GAMING" 0.8 0.3 st2 in
  (* PRIORITY 3: comedy *)
  let st4 := stage comedy_keywords text "COMEDY" 0.9 0.1 st3 in
  (* general entertainment nudge, category unchanged *)
  let st5 := stage general_entertainment text "ENTERTAINMENT" 0.7 0.3 st4 in
  (* PRIORITY 4: education, tech, how-to *)
  let st6 := stage education_keywords text "EDUCATION" 0.2 0.8 st5 in
  let st7 := stage tech_keywords text "SCIENCE_TECH" 0.3 0.7 st6 in
  let st8 := stage howto_keywords text "HOWTO_STYLE" 0.4 0.6 st7 in
  (* duration adjustments *)
  let st9 :=
    if (duration <? 60)%Z then
      if negb (mem (l_category st8) ["MUSIC"]) then
        mkLocals (l_category st8) (qmax (l_entertainment st8) 0.7)
                 (qmin (l_depth st8) 0.3)
      else st8
    else if (duration >? 1200)%Z then
      mkLocals (l_category st8) (l_entertainment st8) (qmin (l_depth st8 + 0.2) 1.0)
    else st8 in
  (* clickbait *)
  let cb1 : Q := if any_in clickbait_patterns text then 0.7 else 0.1 in
  let caps_ratio : Q :=
    inject_Z (Z.of_nat (count_upper original_title))
    / inject_Z (Z.of_nat (Nat.max (String.length original_title) 1)) in
  let cb2 := if qgt caps_ratio 0.5 then qmax cb1 0.5 else cb1 in
  let cb3 :=
    if (contains "!!!" original_title || contains "???" original_title
        || contains emoji_red original_title)%bool
    then qmax cb2 0.4 else cb2 in
  mkClassification (l_category st9) 0.6 (l_entertainment st9) (l_depth st9) cb3.

(** The categories the cascade can emit. *)
Definition output_categories : list string :=
  [ "ENTERTAINMENT"; "MUSIC"; "GAMING"; "COMEDY"; "EDUCATION";
    "SCIENCE_TECH"; "HOWTO_STYLE" ].

End Classifier.

(* ------------------------------------------------------------------ *)
(** ** Number formatting used in reason strings *)

Module Fmt.

Definition digit (d : Z) : ascii := ascii_of_nat (48 + Z.to_nat d).

(** Decimal digits of a non-negative integer, most significant first. *)
Fixpoint digits_aux (fuel : nat) (n : Z) (acc : string) : string :=
  match fuel with
  | O => acc
  | S fuel' =>
      let acc' := String (digit (n mod 10)) acc in
      if (n <? 10)%Z then acc' else digits_aux fuel' (n / 10) acc'
  end.

Definition nat_digits (n : Z) : string :=
  digits_aux (S (Z.to_nat (Z.log2 n))) n EmptyString.

(** [str(n)] for a Python [int]. *)
Definition int_str (n : Z) : string :=
  if (n <? 0)%Z then "-" ++ nat_digits (- n) else nat_digits n.

(** [round(x * 100)] with ties to even, on a non-negative rational. *)
Definition round_cents (x : Q) : Z :=
  let a := (Qnum x * 100)%Z in
  let b := Zpos (Qden x) in
  let fl := (a / b)%Z in
  let r := (a mod b)%Z in
  if (2 * r <? b)%Z then fl
  else if (b <? 2 * r)%Z then (fl + 1)%Z
  else if Z.even fl then fl else (fl + 1)%Z.

Definition format_cents (c : Z) : string :=
  int_str (c / 100) ++ "." ++
  String (digit ((c / 10) mod 10)) (String (digit (c mod 10)) EmptyString).

(** [f"{x:.2f}"]. *)
Definition fmt2 (x : Q) : string :=
  if Qle_bool 0 x then format_cents (round_cents x)
  else "-" ++ format_cents (round_cents (- x)).

End Fmt.

(* ------------------------------------------------------------------ *)
(** ** Focus modes *)

(** [models/focus_mode.py: FocusMode]; timestamps in seconds. *)
Record FocusMode := mkFocusMode {
  fm_id : string;
  name : string;
  is_active : bool;
  is_locked : bool;
  lock_until : option Z;
  allowed_categories : list string;
  blocked_categories : list string;
  min_duration_seconds : Z;
  allowed_languages : list string;
  max_clickbait_score : Q;
  max_entertainment_score : Q;
  block_shorts : bool;
  block_trending : bool;
  daily_time_limit_minutes : option Z;
  blocked_keywords : list string
}.

(** [FocusMode(user_id=..., **preset)]: the column defaults fill the keys a
    preset leaves out. *)
Definition preset_mode (id nm : string) (allowed blocked : list string)
    (min_dur : Z) (max_cb max_ent : Q) (shorts trending : bool)
    (limit : option Z) (keywords : list string) : FocusMode :=
  mkFocusMode id nm false false None allowed blocked min_dur [] max_cb max_ent
    shorts trending limit keywords.

(** [PRESET_MODES["study"]]. *)
Definition preset_study (id : string) : FocusMode :=
  preset_mode id "Study Mode" ["EDUCATION"]
    ["ENTERTAINMENT"; "COMEDY"; "GAMING"; "MUSIC"; "SCIENCE_TECH"; "HOWTO_STYLE"]
    180 0.5 0.6 true false None ["prank"; "gone wrong"; "challenge"].

(** [PRESET_MODES["deep_work"]]. *)
Definition preset_deep_work (id : string) : FocusMode :=
  preset_mode id "Deep Work" ["EDUCATION"; "SCIENCE_TECH"]
    ["ENTERTAINMENT"; "COMEDY"; "GAMING"; "NEWS_POLITICS"; "MUSIC"; "SPORTS"]
    300 0.3 0.4 true true (Some 60%Z) [].

(** [PRESET_MODES["relax"]]. *)
Definition preset_relax (id : string) : FocusMode :=
  preset_mode id "Relax Mode" [] ["NEWS_POLITICS"] 0 0.5 0.8 true false
    (Some 60%Z) [].

(* ------------------------------------------------------------------ *)
(** ** Policy engine: [FilterEngine.check_video] *)

(** The returned dict: [{"allowed": b}] or [{"allowed": b, "reason": r}]. *)
Record Verdict := mkVerdict {
  allowed : bool;
  reason : option string
}.

Module Filter.
Import Py.

Definition block (r : string) : Verdict := mkVerdict false (Some r).
Definition allow : Verdict := mkVerdict true None.

Definition shorts_reason : string := "Shorts are blocked in this focus mode".

Definition too_short_reason (min_dur : Z) : string :=
  "Video too short (minimum " ++ Fmt.int_str (min_dur / 60) ++ " minutes required)".

Definition category_blocked_reason (cat : string) : string :=
  "Category '" ++ cat ++ "' is blocked in this focus mode".

Definition category_not_allowed_reason (cat : string) : string :=
  "Category '" ++ cat ++ "' is not allowed in this focus mode".

Definition language_reason (lang : string) : string :=
  "Language '" ++ lang ++ "' is not allowed in this focus mode".

Definition clickbait_reason (s : Q) : string :=
  "Video detected as clickbait (score: " ++ Fmt.fmt2 s ++ ")".

Definition entertainment_reason (s : Q) : string :=
  "Video too entertaining for this focus mode (score: " ++ Fmt.fmt2 s ++ ")".

Definition keyword_reason (kw : string) : string :=
  "Video contains blocked keyword: '" ++ kw ++ "'".

(** Python truthiness of a list. *)
Definition nonempty {A} (l : list A) : bool :=
  match l with [] => false | _ => true end.

(** Step 7: [for keyword in blocked_keywords: ... return].  The first
    keyword found in the lower-cased title or description. *)
Fixpoint first_blocked_keyword (kws : list string) (title_lower desc_lower : string)
    : option string :=
  match kws with
  | [] => None
  | kw :: kws' =>
      let kl := lower kw in
      if (contains kl title_lower || contains kl desc_lower)%bool then Some kw
      else first_blocked_keyword kws' title_lower desc_lower
  end.

Definition check_video (mode : FocusMode) (video : Video)
    (classification : VideoClassification) : Verdict :=
  (* Step 1: shorts *)
  if (block_shorts mode && v_is_short video)%bool then block shorts_reason
  (* Step 2: duration *)
  else if (v_duration_seconds video <? min_duration_seconds mode)%Z then
    block (too_short_reason (min_duration_seconds mode))
  else
  (* Step 3: categories *)
  let cat := category classification in
  if (nonempty (blocked_categories mode) && mem cat (blocked_categories mode))%bool
  then block (category_blocked_reason cat)
  else if (nonempty (allowed_categories mode)
           && negb (mem cat (allowed_categories mode)))%bool
  then block (category_not_allowed_reason cat)
  (* Step 4: language *)
  else if (nonempty (allowed_languages mode)
           && negb (String.eqb (v_language video) "")
           && negb (mem (v_language video) (allowed_languages mode)))%bool
  then block (language_reason (v_language video))
  (* Step 5: clickbait *)
  else if qgt (clickbait_score classification) (max_clickbait_score mode)
  then block (clickbait_reason (clickbait_score classification))
  (* Step 6: entertainment *)
  else if qgt (entertainment_score classification) (max_entertainment_score mode)
  then block (entertainment_reason (entertainment_score classification))
  (* Step 7: blocked keywords *)
  else if nonempty (blocked_keywords mode) then
    match first_blocked_keyword (blocked_keywords mode)
            (lower (v_title video)) (lower (v_description video)) with
    | Some kw => block (keyword_reason kw)
    | None => allow
    end
  else allow.

End Filter.

(* ------------------------------------------------------------------ *)
(** ** Focus-mode session supervisor: [services/focus_engine.py] *)

Module Focus.

(** The exceptions the engine raises.  [ModeLocked] and [ModeNotFound] are
    the two [ValueError]s of [activate_mode] (messages
    ["Cannot change mode: '<name>' is locked until <lock_until>"] and
    ["Focus mode not found"]); [NotActive] is the [ValueError] of
    [lock_session]; [MultipleResultsFound] is raised by
    [scalar_one_or_none()] when its query matches several rows. *)
Inductive FocusError :=
  | ModeLocked (mode_name : string) (until : Z)
  | ModeNotFound
  | NotActive
  | MultipleResultsFound.

Inductive result (A : Type) :=
  | Ok (a : A)
  | Err (e : FocusError).
Arguments Ok {A} a.
Arguments Err {A} e.

(** The user's modes as the queries [select(FocusMode).where(user_id == ...)]
    return them; the engine's database is this list. *)
Definition Store := list FocusMode.

(** [scalar_one_or_none()]. *)
Definition scalar_one_or_none {A} (rows : list A) : result (option A) :=
  match rows with
  | [] => Ok None
  | [r] => Ok (Some r)
  | _ => Err MultipleResultsFound
  end.

Definition set_active (b : bool) (m : FocusMode) : FocusMode :=
  {| fm_id := fm_id m; name := name m; is_active := b;
     is_locked := is_locked m; lock_until := lock_until m;
     allowed_categories := allowed_categories m;
     blocked_categories := blocked_categories m;
     min_duration_seconds := min_duration_seconds m;
     allowed_languages := allowed_languages m;
     max_clickbait_score := max_clickbait_score m;
     max_entertainment_score := max_entertainment_score m;
     block_shorts := block_shorts m; block_trending := block_trending m;
     daily_time_limit_minutes := daily_time_limit_minutes m;
     blocked_keywords := blocked_keywords m |}.

Definition set_lock (b : bool) (until : option Z) (m : FocusMode) : FocusMode :=
  {| fm_id := fm_id m; name := name m; is_active := is_active m;
     is_locked := b; lock_until := until;
     allowed_categories := allowed_categories m;
     blocked_categories := blocked_categories m;
     min_duration_seconds := min_duration_seconds m;
     allowed_languages := allowed_languages m;
     max_clickbait_score := max_clickbait_score m;
     max_entertainment_score := max_entertainment_score m;
     block_shorts := block_shorts m; block_trending := block_trending m;
     daily_time_limit_minutes := daily_time_limit_minutes m;
     blocked_keywords := blocked_keywords m |}.

(** [mode.is_locked = False; mode.lock_until = None]. *)
Definition clear_lock (m : FocusMode) : FocusMode := set_lock false None m.

(** [_get_locked_mode]: the query selects the modes with [is_locked]; an
    expired lock is cleared and committed.  Returns the live locked mode, if
    any, and the store after the call. *)
Definition _get_locked_mode (now : Z) (s : Store) : result (option FocusMode) * Store :=
  match scalar_one_or_none (filter is_locked s) with
  | Err e => (Err e, s)
  | Ok None => (Ok None, s)
  | Ok (Some m) =>
      match lock_until m with
      | None => (Ok None, s)
      | Some t =>
          if (now <? t)%Z then (Ok (Some m), s)
          else (Ok None, map (fun x => if is_locked x then clear_lock x else x) s)
      end
  end.

(** [for mode in all_modes: if str(mode.id) == str(mode_id): ...; break]. *)
Fixpoint activate_first (mode_id : string) (s : Store) : Store * option FocusMode :=
  match s with
  | [] => ([], None)
  | m :: s' =>
      if String.eqb (fm_id m) mode_id then
        let m' := set_active true m in (m' :: s', Some m')
      else let (s'', t) := activate_first mode_id s' in (m :: s'', t)
  end.

(** [activate_mode].  On an exception the request's session is rolled back,
    so only what [_get_locked_mode] committed persists. *)
Definition activate_mode (now : Z) (mode_id : string) (s : Store)
    : result FocusMode * Store :=
  match _get_locked_mode now s with
  | (Err e, s1) => (Err e, s1)
  | (Ok (Some locked), s1) =>
      (Err (ModeLocked (name locked)
              (match lock_until locked with Some t => t | None => 0%Z end)), s1)
  | (Ok None, s1) =>
      let all_modes := map (fun m => clear_lock (set_active false m)) s1 in
      match activate_first mode_id all_modes with
      | (_, None) => (Err ModeNotFound, s1)
      | (s2, Some target) => (Ok target, s2)
      end
  end.

(** Replace the row with the given id by [f] of itself. *)
Definition update_id (mode_id : string) (f : FocusMode -> FocusMode) (s : Store) : Store :=
  map (fun m => if String.eqb (fm_id m) mode_id then f m else m) s.

(** [lock_session]; [duration_minutes] converted to seconds. *)
Definition lock_session (now : Z) (mode_id : string) (duration_minutes : Z) (s : Store)
    : result FocusMode * Store :=
  match scalar_one_or_none (filter (fun m => String.eqb (fm_id m) mode_id) s) with
  | Err e => (Err e, s)
  | Ok None => (Err ModeNotFound, s)
  | Ok (Some m) =>
      if negb (is_active m) then (Err NotActive, s)
      else
        let f := set_lock true (Some (now + 60 * duration_minutes)%Z) in
        (Ok (f m), update_id mode_id f s)
  end.

(** [unlock_session]. *)
Definition unlock_session (mode_id : string) (s : Store) : result FocusMode * Store :=
  match scalar_one_or_none (filter (fun m => String.eqb (fm_id m) mode_id) s) with
  | Err e => (Err e, s)
  | Ok None => (Err ModeNotFound, s)
  | Ok (Some m) => (Ok (clear_lock m), update_id mode_id clear_lock s)
  end.

(** [models/watch_history.py: WatchHistory], the columns the engine reads. *)
Record WatchHistory := mkWatch {
  wh_user_id : string;
  watch_duration_seconds : Z;
  watched_at : Z
}.

(** The dict returned by [check_time_limit]. *)
Record TimeLimit := mkTimeLimit {
  has_limit : bool;
  exceeded : bool;
  used_minutes : Z;
  limit_minutes : option Z;
  remaining_minutes : option Z
}.

(** [datetime.utcnow().replace(hour=0, minute=0, second=0, microsecond=0)]. *)
Definition day_start (now : Z) : Z := (now / 86400 * 86400)%Z.

(** [select(func.sum(watch_duration_seconds)).where(user_id == ...,
    watched_at >= today_start)], then [result.scalar() or 0]. *)
Definition sum_today (now : Z) (user_id : string) (h : list WatchHistory) : Z :=
  fold_right Z.add 0%Z
    (map watch_duration_seconds
       (filter (fun w => String.eqb (wh_user_id w) user_id
                         && (day_start now <=? watched_at w))%Z%bool h)).

(** [check_time_limit]; [not mode.daily_time_limit_minutes] holds for
    [None] and for [0]. *)
Definition check_time_limit (now : Z) (user_id : string) (h : list WatchHistory)
    (mode : FocusMode) : TimeLimit :=
  match daily_time_limit_minutes mode with
  | None => mkTimeLimit false false 0 None None
  | Some 0%Z => mkTimeLimit false false 0 None None
  | Some limit =>
      let total_seconds := sum_today now user_id h in
      let used := (total_seconds / 60)%Z in
      mkTimeLimit true (limit <=? used)%Z used (Some limit) (Some (Z.max 0 (limit - used)))
  end.

(** The invariant of the stores the engine produces: a locked mode is the
    active one, and at most one mode is active. *)
Definition supervisor_inv (s : Store) : Prop :=
  (forall m, In m s -> is_locked m = true -> is_active m = true)
  /\ (length (filter is_active s) <= 1)%nat.

End Focus.

(* ------------------------------------------------------------------ *)
(** ** Personalisation re-ranker:
       [PersonalizationService.get_personalized_ranking] *)

Module Personalization.
Import Py Floats.
Local Open Scope float_scope.
#[local] Set Warnings "-inexact-float".

(** The keys the ranking reads from a video dict; [None] for a missing key.
    The scores are Python floats, IEEE-754 doubles. *)
Record RankVideo := mkRankVideo {
  rv_id : string;
  rv_category : option string;
  rv_depth_score : option float;
  rv_clickbait_score : option float
}.



(** [{**video, "personalization_score": score}]. *)
Definition Scored := (RankVideo * float)%type.





End Personalization.

(* ------------------------------------------------------------------ *)
(** ** Score bounds *)

Module Bounds.
Import Classifier.
Local Open Scope Q_scope.

Definition in01 (q : Q) : Prop := 0 <= q /\ q <= 1.

(** The state invariant of the cascade before the duration adjustment:
    depth at most 0.8 leaves room for the +0.2 of long videos. *)
Definition cascade_inv (st : locals) : Prop :=
  In (l_category st) output_categories /\ in01 (l_entertainment st)
  /\ 0 <= l_depth st /\ l_depth st <= 0.8.

End Bounds.

(* ------------------------------------------------------------------ *)
(** ** Policy engine: the checks as the specification lists them *)

Module FilterSpec.
Import Py.

(** The checks of the policy engine, in the order the specification lists
    them (section 4.2, checks 1 to 8). *)
Inductive Rule :=
  | RShorts | RMinDuration | RBlockedCategory | RNotAllowedCategory
  | RLanguage | RClickbait | REntertainment | RBlockedKeyword.

Definition all_rules : list Rule :=
  [RShorts; RMinDuration; RBlockedCategory; RNotAllowedCategory;
   RLanguage; RClickbait; REntertainment; RBlockedKeyword].

(** The failure condition of each check, following the specification. *)
Definition rule_fails (mode : FocusMode) (video : Video) (c : VideoClassification)
    (r : Rule) : bool :=
  match r with
  | RShorts => block_shorts mode && v_is_short video
  | RMinDuration => (v_duration_seconds video <? min_duration_seconds mode)%Z
  | RBlockedCategory =>
      Filter.nonempty (blocked_categories mode) && mem (category c) (blocked_categories mode)
  | RNotAllowedCategory =>
      Filter.nonempty (allowed_categories mode)
      && negb (mem (category c) (allowed_categories mode))
  | RLanguage =>
      Filter.nonempty (allowed_languages mode) && negb (String.eqb (v_language video) "")
      && negb (mem (v_language video) (allowed_languages mode))
  | RClickbait => qgt (clickbait_score c) (max_clickbait_score mode)
  | REntertainment => qgt (entertainment_score c) (max_entertainment_score mode)
  | RBlockedKeyword =>
      Filter.nonempty (blocked_keywords mode)
      && existsb (fun kw => contains (lower kw) (lower (v_title video))
                            || contains (lower kw) (lower (v_description video)))
                 (blocked_keywords mode)
  end%bool.

(** The first failing check, if any. *)
Definition first_failing (mode : FocusMode) (video : Video) (c : VideoClassification)
    : option Rule :=
  find (rule_fails mode video c) all_rules.

(** The beginning of the reason string that names each check. *)
Definition rule_prefix (video : Video) (c : VideoClassification) (r : Rule) : string :=
  match r with
  | RShorts => "Shorts are blocked"
  | RMinDuration => "Video too short (minimum "
  | RBlockedCategory => "Category '" ++ category c ++ "' is blocked"
  | RNotAllowedCategory => "Category '" ++ category c ++ "' is not allowed"
  | RLanguage => "Language '" ++ v_language video ++ "' is not allowed"
  | RClickbait => "Video detected as clickbait (score: "
  | REntertainment => "Video too entertaining"
  | RBlockedKeyword => "Video contains blocked keyword: '"
  end.

(** The same classification with another category. *)
Definition with_category (c : VideoClassification) (cat : string) : VideoClassification :=
  mkClassification cat (confidence_score c) (entertainment_score c) (depth_score c)
    (clickbait_score c).

(** Scenario A of the specification: title "OFFICIAL MUSIC VIDEO - Song Name",
    240 seconds, no description, tags or channel, not a short. *)
Definition scenario_a_video : Video :=
  mkVideo "scenario-a" "OFFICIAL MUSIC VIDEO - Song Name" "" [] "" 240 false "".

End FilterSpec.

(* ------------------------------------------------------------------ *)
(** ** Daily time accounting as the specification states it *)

Module TimeSpec.
Import Focus.

(** Two instants fall on the same UTC calendar day. *)
Definition same_utc_day (a b : Z) : bool := (a / 86400 =? b / 86400)%Z.

(** The watch seconds of [user_id] on the UTC calendar day of [now]. *)
Definition today_seconds (now : Z) (user_id : string) (h : list WatchHistory) : Z :=
  fold_right Z.add 0%Z
    (map watch_duration_seconds
       (filter (fun w => String.eqb (wh_user_id w) user_id
                         && same_utc_day (watched_at w) now)%bool h)).

End TimeSpec.

(* ------------------------------------------------------------------ *)
(** ** The re-ranking score as the specification states it *)

Module RankSpec.
Import Py Floats Personalization.





End RankSpec.

(* ------------------------------------------------------------------ *)
(** ** YouTube metadata: [services/youtube_service.py] *)

Module YouTube.
Import Py.

(** [\d] on ASCII. *)
Definition is_digit (c : ascii) : bool :=
  let n := nat_of_ascii c in (Nat.leb 48 n && Nat.leb n 57)%bool.

(** The maximal run of digits at the start of a string, and the rest. *)
Fixpoint span_digits (s : string) : string * string :=
  match s with
  | EmptyString => (EmptyString, EmptyString)
  | String c s' =>
      if is_digit c then let (d, r) := span_digits s' in (String c d, r)
      else (EmptyString, s)
  end.

(** [int(d)] on a string of digits. *)
Fixpoint int_of_digits_aux (acc : Z) (d : string) : Z :=
  match d with
  | EmptyString => acc
  | String c d' => int_of_digits_aux (acc * 10 + (Z.of_nat (nat_of_ascii c) - 48))%Z d'
  end.

Definition int_of_digits (d : string) : Z := int_of_digits_aux 0 d.

(** The optional group [(?:(\d+)L)?] at the start of a string: the greedy
    digit run followed by the letter [L] is consumed and captured; otherwise
    (no digit, or a digit run followed by another character: a shorter run
    is followed by a digit, not by [L]) the group matches empty. *)
Definition opt_group (l : ascii) (s : string) : option string * string :=
  match span_digits s with
  | (EmptyString, _) => (None, s)
  | (_, EmptyString) => (None, s)
  | (d, String c r) => if Ascii.eqb c l then (Some d, r) else (None, s)
  end.

(** [int(match.group(i) or 0)]. *)
Definition group_int (g : option string) : Z :=
  match g with Some d => int_of_digits d | None => 0%Z end.

(** [_parse_duration]: [re.compile(r'PT(?:(\d+)H)?(?:(\d+)M)?(?:(\d+)S)?')]
    and [pattern.match] (anchored at the start only).  Everything after
    "PT" is optional, so the match fails exactly when the string does not
    start with "PT". *)
Definition _parse_duration (duration : string) : Z :=
  match duration with
  | String "P" (String "T" rest) =>
      let (g1, r1) := opt_group "H" rest in
      let (g2, r2) := opt_group "M" r1 in
      let (g3, _) := opt_group "S" r2 in
      (group_int g1 * 3600 + group_int g2 * 60 + group_int g3)%Z
  | _ => 0%Z
  end.

(** [_is_short]. *)
Definition _is_short (duration_seconds : Z) (title : string) : bool :=
  if (duration_seconds <=? 60)%Z then true
  else if (contains "#shorts" (lower title) || contains "#short" (lower title))%bool
  then true
  else false.

End YouTube.

(* ------------------------------------------------------------------ *)
(** ** Gemini answer normalisation: [AIClassifier._classify_with_ai] *)

Module AI.
Import Py.

(** [AIClassifier.CATEGORIES]. *)
Definition CATEGORIES : list string :=
  [ "EDUCATION"; "STUDY"; "TECH"; "MUSIC"; "PODCAST";
    "NEWS"; "ENTERTAINMENT"; "MEME"; "CLICKBAIT"; "GAMING" ].

(** [c.upper()] on ASCII. *)
Definition upper_char (c : ascii) : ascii :=
  let n := nat_of_ascii c in
  if (Nat.leb 97 n && Nat.leb n 122)%bool then ascii_of_nat (n - 32) else c.

Fixpoint upper (s : string) : string :=
  match s with
  | EmptyString => EmptyString
  | String c s' => String (upper_char c) (upper s')
  end.

(** The keys of [json.loads(text)] the code reads, [None] when missing; a
    score holds the value [float(...)] returns for it. *)
Record AIResult := mkAIResult {
  r_category : option string;
  r_confidence_score : option Q;
  r_entertainment_score : option Q;
  r_depth_score : option Q;
  r_clickbait_score : option Q
}.

(** [result.get(key, default)]. *)
Definition get_or {A} (o : option A) (d : A) : A :=
  match o with Some a => a | None => d end.

(** [min(1.0, max(0.0, x))]. *)
Definition clamp01 (x : Q) : Q := qmin 1.0 (qmax 0.0 x).

(** The "Validate and normalize" block. *)
Definition normalize (result : AIResult) : VideoClassification :=
  let category := upper (get_or (r_category result) "ENTERTAINMENT") in
  let category := if mem category CATEGORIES then category else "ENTERTAINMENT" in
  mkClassification category
    (clamp01 (get_or (r_confidence_score result) 0.5))
    (clamp01 (get_or (r_entertainment_score result) 0.5))
    (clamp01 (get_or (r_depth_score result) 0.5))
    (clamp01 (get_or (r_clickbait_score result) 0.0)).

(** The outcome of the [try] block up to the normalisation: a decoded JSON
    object of the expected shape, or an exception (API error, invalid JSON,
    a non-string category, a score [float] rejects). *)
Inductive Response :=
  | Answer (parsed : AIResult)
  | Raised.

(** [_classify_with_ai]: the [except] branch falls back to the heuristic. *)
Definition _classify_with_ai (video : Video) (response : Response) : VideoClassification :=
  match response with
  | Answer r => normalize r
  | Raised => Classifier._fallback_classification video
  end.

End AI.

(* ------------------------------------------------------------------ *)
(** ** Classification cache: [AIClassifier.classify_video] with
       [models/content_cache.py] *)

Module Caching.
Import Focus.

(** The [ContentCache] columns the classifier reads and writes. *)
Record CacheEntry := mkEntry {
  ce_video_id : string;
  ce_category : string;
  ce_confidence_score : Q;
  ce_entertainment_score : Q;
  ce_depth_score : Q;
  ce_clickbait_score : Q;
  ce_expires_at : Z
}.

(** The [content_cache] table. *)
Definition DB := list CacheEntry.

(** [ContentCache.is_expired]: [utcnow() > expires_at]. *)
Definition is_expired (now : Z) (e : CacheEntry) : bool := (ce_expires_at e <? now)%Z.

Definition rows_of (video_id : string) (db : DB) : list CacheEntry :=
  filter (fun e => String.eqb (ce_video_id e) video_id) db.

(** [_get_cached]. *)
Definition _get_cached (now : Z) (video_id : string) (db : DB) : result (option CacheEntry) :=
  match scalar_one_or_none (rows_of video_id db) with
  | Err e => Err e
  | Ok (Some c) => if negb (is_expired now c) then Ok (Some c) else Ok None
  | Ok None => Ok None
  end.

(** [VideoClassification(category=cached.category, ...)]. *)
Definition of_entry (c : CacheEntry) : VideoClassification :=
  mkClassification (ce_category c) (ce_confidence_score c) (ce_entertainment_score c)
    (ce_depth_score c) (ce_clickbait_score c).

(** The update branch of [_cache_result]; [expires_at = utcnow() + 24h]. *)
Definition write_entry (now : Z) (c : VideoClassification) (e : CacheEntry) : CacheEntry :=
  mkEntry (ce_video_id e) (category c) (confidence_score c) (entertainment_score c)
    (depth_score c) (clickbait_score c) (now + 86400)%Z.

(** [_cache_result]; a new row takes [default_expiry()]. *)
Definition _cache_result (now : Z) (video : Video) (c : VideoClassification) (db : DB)
    : result DB :=
  match scalar_one_or_none (rows_of (v_id video) db) with
  | Err e => Err e
  | Ok (Some _) =>
      Ok (map (fun e => if String.eqb (ce_video_id e) (v_id video) then write_entry now c e
                        else e) db)
  | Ok None =>
      Ok (db ++ [mkEntry (v_id video) (category c) (confidence_score c)
                   (entertainment_score c) (depth_score c) (clickbait_score c)
                   (now + 86400)%Z])%list
  end.

(** [classify_video(video, db, force_refresh)] with [use_ai=False], as every
    caller invokes it. *)
Definition classify_video (now : Z) (video : Video) (db : DB) (force_refresh : bool)
    : result VideoClassification * DB :=
  let cached := if force_refresh then Ok None else _get_cached now (v_id video) db in
  match cached with
  | Err e => (Err e, db)
  | Ok (Some c) => (Ok (of_entry c), db)
  | Ok None =>
      let classification := Classifier._fallback_classification video in
      match _cache_result now video classification db with
      | Err e => (Err e, db)
      | Ok db' => (Ok classification, db')
      end
  end.

End Caching.

(* ------------------------------------------------------------------ *)
(** ** Feed assembly: [routers/feed.py] *)

Module Feed.
Import Py Focus Filter Caching.

(** The loop over [videos.get("items", [])] of [get_feed] (YouTube branch)
    and [search_feed]: classify, check, keep or count as filtered, and stop
    once [max_results] items are kept.  A kept item is the video with its
    classification (the [FeedItem] fields are read from both); the result
    is [(filtered_items, filtered_count)] and the cache after the loop. *)
Fixpoint feed_items (now : Z) (mode : FocusMode) (max_results : Z) (videos : list Video)
    (db : DB) (items : list (Video * VideoClassification)) (filtered_count : Z)
    : result (list (Video * VideoClassification) * Z) * DB :=
  match videos with
  | [] => (Ok (items, filtered_count), db)
  | video :: rest =>
      match classify_video now video db false with
      | (Err e, db') => (Err e, db')
      | (Ok c, db') =>
          if allowed (check_video mode video c) then
            let items' := (items ++ [(video, c)])%list in
            if (max_results <=? Z.of_nat (length items'))%Z then (Ok (items', filtered_count), db')
            else feed_items now mode max_results rest db' items' filtered_count
          else feed_items now mode max_results rest db' items (filtered_count + 1)%Z
      end
  end.

(** A demo video dict: [category], [duration_seconds] and [is_short] as
    [video.get] reads them ([None] for a missing category). *)
Record DemoVideo := mkDemo {
  d_id : string;
  d_category : option string;
  d_duration_seconds : Z;
  d_is_short : bool
}.

(** The loop of [get_feed]'s demo-data branch: the "quick check" on the
    pre-assigned category, the duration and the shorts flag. *)
Fixpoint demo_items (mode : FocusMode) (max_results : Z) (videos : list DemoVideo)
    (items : list DemoVideo) (filtered_count : Z) : list DemoVideo * Z :=
  match videos with
  | [] => (items, filtered_count)
  | video :: rest =>
      let video_category :=
        match d_category video with Some c => c | None => "ENTERTAINMENT" end in
      if (nonempty (allowed_categories mode)
          && negb (mem video_category (allowed_categories mode)))%bool
      then demo_items mode max_results rest items (filtered_count + 1)%Z
      else if (nonempty (blocked_categories mode)
               && mem video_category (blocked_categories mode))%bool
      then demo_items mode max_results rest items (filtered_count + 1)%Z
      else if (d_duration_seconds video <? min_duration_seconds mode)%Z
      then demo_items mode max_results rest items (filtered_count + 1)%Z
      else if (block_shorts mode && d_is_short video)%bool
      then demo_items mode max_results rest items (filtered_count + 1)%Z
      else
        let items' := (items ++ [video])%list in
        if (max_results <=? Z.of_nat (length items'))%Z then (items', filtered_count)
        else demo_items mode max_results rest items' filtered_count
  end.

End Feed.

(* ------------------------------------------------------------------ *)
(** ** Session statistics and the modes router *)

Module Session.
Import Focus.

(** [FocusEngine.get_active_mode] (and the same query of the routers). *)
Definition get_active_mode (s : Store) : result (option FocusMode) :=
  scalar_one_or_none (filter is_active s).

(** The [lock_status] dict. *)
Record LockStatus := mkLockStatus {
  ls_remaining_minutes : Z;
  ls_unlock_at : Z
}.

(** The dict returned by [get_session_stats]. *)
Record SessionStats := mkStats {
  has_active_mode : bool;
  stats_mode : option FocusMode;
  time_limit : option TimeLimit;
  lock_status : option LockStatus
}.

(** [get_session_stats]; [remaining_lock] in seconds and
    [int(remaining_lock // 60)]. *)
Definition get_session_stats (now : Z) (user_id : string) (h : list WatchHistory)
    (s : Store) : result SessionStats :=
  match get_active_mode s with
  | Err e => Err e
  | Ok None => Ok (mkStats false None None None)
  | Ok (Some mode) =>
      let tl := check_time_limit now user_id h mode in
      let lock_status :=
        if is_locked mode then
          match lock_until mode with
          | Some u =>
              let remaining_lock := (u - now)%Z in
              if (0 <? remaining_lock)%Z then Some (mkLockStatus (remaining_lock / 60) u)
              else None
          | None => None
          end
        else None in
      Ok (mkStats true (Some mode) (Some tl) lock_status)
  end.

(** [routers/modes.py: activate_mode]: the endpoint's own implementation.
    [ModeLocked] is its 403, [ModeNotFound] its 404; an exception rolls the
    request's session back, so the store is unchanged on every error. *)
Definition router_activate_mode (now : Z) (mode_id : string) (s : Store)
    : result FocusMode * Store :=
  match scalar_one_or_none (filter is_locked s) with
  | Err e => (Err e, s)
  | Ok locked_mode =>
      let live :=
        match locked_mode with
        | Some lm =>
            match lock_until lm with
            | Some t => if (now <? t)%Z then Some (lm, t) else None
            | None => None
            end
        | None => None
        end in
      match live with
      | Some (lm, t) => (Err (ModeLocked (name lm) t), s)
      | None =>
          let all_modes := map (fun m => clear_lock (set_active false m)) s in
          match scalar_one_or_none (filter (fun m => String.eqb (fm_id m) mode_id) all_modes) with
          | Err e => (Err e, s)
          | Ok None => (Err ModeNotFound, s)
          | Ok (Some m) =>
              (Ok (set_active true m), update_id mode_id (set_active true) all_modes)
          end
      end
  end.

End Session.

(* ------------------------------------------------------------------ *)
(** ** Learned preferences: [PersonalizationService.get_user_preferences] *)

Module Preferences.
Import Py Caching.

(** The [WatchHistory] columns [_analyze_watch_history] reads. *)
Record WatchRow := mkWatchRow {
  w_completed : bool;
  w_was_skipped : bool
}.

(** The [UserFeedback] column [_analyze_feedback] reads. *)
Record FeedbackRow := mkFeedbackRow {
  f_feedback_type : string
}.

(** [d[k] = d.get(k, 0) + 1] on a dict kept in insertion order. *)
Fixpoint incr (k : string) (d : list (string * Z)) : list (string * Z) :=
  match d with
  | [] => [(k, 1%Z)]
  | (k', n) :: d' => if String.eqb k k' then (k', (n + 1)%Z) :: d' else (k', n) :: incr k d'
  end.

(** [d.get(k, 0)]. *)
Definition dict_get0 (k : string) (d : list (string * Z)) : Z :=
  match find (fun p => String.eqb (fst p) k) d with Some p => snd p | None => 0%Z end.

(** [content.category if content else "UNKNOWN"]. *)
Definition row_category (content : option CacheEntry) : string :=
  match content with Some c => ce_category c | None => "UNKNOWN" end.

(** The counting loop of [_analyze_watch_history] over the rows of its
    outer join, in the order the query returns them. *)
Definition count_rows (sel : WatchRow -> bool) (rows : list (WatchRow * option CacheEntry))
    : list (string * Z) :=
  fold_left (fun d r => if sel (fst r) then incr (row_category (snd r)) d else d) rows [].

Definition completed_by_category (rows : list (WatchRow * option CacheEntry)) :=
  count_rows w_completed rows.

Definition skipped_by_category (rows : list (WatchRow * option CacheEntry)) :=
  count_rows w_was_skipped rows.

(** [sorted(d.items(), key=lambda x: x[1], reverse=True)], stable. *)
Fixpoint insert_count (x : string * Z) (l : list (string * Z)) : list (string * Z) :=
  match l with
  | [] => [x]
  | y :: l' => if (snd y <=? snd x)%Z then x :: l else y :: insert_count x l'
  end.

Fixpoint sort_counts (l : list (string * Z)) : list (string * Z) :=
  match l with
  | [] => []
  | x :: l' => insert_count x (sort_counts l')
  end.

(** [[c[0] for c in sorted_cats[:3]]]. *)
Definition top3 (d : list (string * Z)) : list string := map fst (firstn 3 (sort_counts d)).

(** The categories the feedback loop of [_analyze_feedback] appends to
    [disliked_categories]: [content.category if content else None], kept
    when truthy; a "like" goes to the other list ([elif]). *)
Definition dislike_candidates (rows : list (FeedbackRow * option CacheEntry)) : list string :=
  flat_map (fun r =>
    match snd r with
    | Some c =>
        if String.eqb (ce_category c) "" then []
        else if String.eqb (f_feedback_type (fst r)) "like" then []
        else if (String.eqb (f_feedback_type (fst r)) "dislike"
                 || String.eqb (f_feedback_type (fst r)) "not_interested")%bool
        then [ce_category c] else []
    | None => []
    end) rows.

(** [for cat in disliked: if cat not in avoided: avoided.append(cat)]. *)
Definition add_missing (avoided disliked : list string) : list string :=
  fold_left (fun acc cat => if mem cat acc then acc else (acc ++ [cat])%list) disliked avoided.

Record Prefs := mkPrefs {
  preferred_categories : list string;
  avoided_categories : list string
}.

(** [get_user_preferences], given the watch rows and [disliked], the list
    [list(set(...))] of [_analyze_feedback] returns (in set order). *)
Definition get_user_preferences (rows : list (WatchRow * option CacheEntry))
    (disliked : list string) : Prefs :=
  let completed := completed_by_category rows in
  let skipped := skipped_by_category rows in
  let preferred := if Filter.nonempty completed then top3 completed else [] in
  let avoided := if Filter.nonempty skipped then top3 skipped else [] in
  let avoided := if Filter.nonempty disliked then add_missing avoided disliked else avoided in
  mkPrefs preferred avoided.

End Preferences.

(* ------------------------------------------------------------------ *)
(** ** ISO 8601 durations and list shapes used by the statements *)

Module DurationSpec.

(** The component "<n><L>" of an ISO 8601 duration, if present, before [rest]. *)
Definition comp (l : ascii) (o : option Z) (rest : string) : string :=
  match o with Some n => Fmt.int_str n ++ String l rest | None => rest end.

(** "PT[<h>H][<m>M][<s>S]". *)
Definition format_duration (h m s : option Z) : string :=
  "PT" ++ comp "H" h (comp "M" m (comp "S" s "")).

Definition component (o : option Z) : Z := match o with Some n => n | None => 0%Z end.

End DurationSpec.

Module FeedSpec.
Import Py Focus Filter Feed.

(** The four checks of the demo loop as one condition on a video. *)
Definition passes_quick_check (mode : FocusMode) (video : DemoVideo) : bool :=
  let video_category :=
    match d_category video with Some c => c | None => "ENTERTAINMENT" end in
  negb (nonempty (allowed_categories mode) && negb (mem video_category (allowed_categories mode)))
  && negb (nonempty (blocked_categories mode) && mem video_category (blocked_categories mode))
  && negb (d_duration_seconds video <? min_duration_seconds mode)%Z
  && negb (block_shorts mode && d_is_short video).

End FeedSpec.

Module PrefSpec.
Import Caching Preferences.

(** The number of watch rows selected by [sel] whose category is [k]. *)
Definition rows_with (sel : WatchRow -> bool) (k : string)
    (rows : list (WatchRow * option CacheEntry)) : Z :=
  Z.of_nat (length (filter (fun r => sel (fst r) && String.eqb (row_category (snd r)) k) rows)).

(** [top] lists at most three distinct categories of the rows selected by
    [sel], none counting fewer such rows than a category left out, and all
    of them when there are fewer than three. *)
Definition ranked (sel : WatchRow -> bool) (rows : list (WatchRow * option CacheEntry))
    (top : list string) : Prop :=
  (length top <= 3)%nat /\ NoDup top
  /\ (forall k, In k top -> exists r, In r rows /\ sel (fst r) = true /\ row_category (snd r) = k)
  /\ (forall k r, In k top -> In r rows -> sel (fst r) = true -> ~ In (row_category (snd r)) top ->
        (rows_with sel (row_category (snd r)) rows <= rows_with sel k rows)%Z)
  /\ ((length top < 3)%nat ->
        forall r, In r rows -> sel (fst r) = true -> In (row_category (snd r)) top).

End PrefSpec.

(** [l1] is [l2] with some elements left out, the others in order. *)
Inductive subseq {A} : list A -> list A -> Prop :=
  | subseq_nil : subseq [] []
  | subseq_drop x l1 l2 : subseq l1 l2 -> subseq l1 (x :: l2)
  | subseq_keep x l1 l2 : subseq l1 l2 -> subseq (x :: l1) (x :: l2).

(* ================================================================== *)
(** * Properties *)

Open Scope Q_scope.

(* ------------------------------------------------------------------ *)
(** ** The heuristic classifier *)

Module ClassifierFacts.
Import Py Classifier Bounds.


Lemma Qle_lit (a b : Q) : Qle_bool a b = true -> a <= b.
Proof. apply Qle_bool_iff. Qed.

Ltac lits := repeat split; apply Qle_lit; reflexivity.

Lemma qmax_in01 (a b : Q) : in01 a -> in01 b -> in01 (qmax a b).
Proof. unfold qmax; intros Ha Hb; destruct (Qle_bool b a); assumption. Qed.

Lemma qmin_le_r (a b : Q) : qmin a b <= b.
Proof.
  unfold qmin; destruct (Qle_bool a b) eqn:E.
  - apply Qle_bool_iff; exact E.
  - apply Qle_refl.
Qed.

Lemma qmin_ge (a b c : Q) : c <= a -> c <= b -> c <= qmin a b.
Proof. unfold qmin; destruct (Qle_bool a b); auto. Qed.

Lemma mk_inv (cat : string) (ent dep : Q) :
  In cat output_categories -> Qle_bool 0 ent = true -> Qle_bool ent 1 = true ->
  Qle_bool 0 dep = true -> Qle_bool dep 0.8 = true ->
  cascade_inv (mkLocals cat ent dep).
Proof.
  intros Hc H1 H2 H3 H4; repeat split; try assumption; apply Qle_lit; assumption.
Qed.

Lemma stage_inv (kws : list string) (text cat : string) (ent dep : Q) (st : locals) :
  In cat output_categories -> Qle_bool 0 ent = true -> Qle_bool ent 1 = true ->
  Qle_bool 0 dep = true -> Qle_bool dep 0.8 = true ->
  cascade_inv st -> cascade_inv (stage kws text cat ent dep st).
Proof.
  intros Hc H1 H2 H3 H4 Hst; unfold stage.
  destruct (String.eqb _ _); [destruct (any_in kws text)|]; auto using mk_inv.
Qed.

Ltac cat_in := simpl; tauto.

Lemma maybe_qmax_in01 (b : bool) (a x : Q) :
  in01 a -> in01 x -> in01 (if b then qmax a x else a).
Proof. destruct b; auto using qmax_in01. Qed.

(** C1: for every video, the heuristic classifier yields a category of its
    enumerated output set and four scores (confidence, entertainment, depth,
    clickbait) in [0, 1]. *)
Theorem fallback_classification_ranges (video : Video) :
  In (category (_fallback_classification video)) output_categories
  /\ in01 (confidence_score (_fallback_classification video))
  /\ in01 (entertainment_score (_fallback_classification video))
  /\ in01 (depth_score (_fallback_classification video))
  /\ in01 (clickbait_score (_fallback_classification video)).
Proof.
  unfold _fallback_classification; cbv zeta.
  cbn [category confidence_score entertainment_score depth_score clickbait_score].
  match goal with |- context [stage howto_keywords ?t ?c ?e ?d ?s] =>
    assert (H8 : cascade_inv (stage howto_keywords t c e d s));
    [| set (st8 := stage howto_keywords t c e d s) in *] end.
  { repeat (apply stage_inv; [cat_in | reflexivity ..|]).
    destruct (any_in music_keywords _); cbn [l_category String.eqb negb];
      [| destruct (any_in music_channel_indicators _)];
      apply mk_inv; first [cat_in | reflexivity]. }
  destruct H8 as (Hc & He & Hd0 & Hd1).
  assert (Hcb : forall cb, in01 cb -> in01 (if (contains "!!!" (v_title video)
      || contains "???" (v_title video) || contains emoji_red (v_title video))%bool
      then qmax cb 0.4 else cb)) by (intros; apply maybe_qmax_in01; [assumption | lits]).
  split; [|split; [lits|split; [|split]]].
  - destruct (_ <? 60)%Z; [destruct (negb (mem (l_category st8) ["MUSIC"])) | destruct (_ >? 1200)%Z]; cbn [l_category]; exact Hc.
  - destruct (_ <? 60)%Z; [destruct (negb (mem (l_category st8) ["MUSIC"])) | destruct (_ >? 1200)%Z];
      cbn [l_entertainment]; try exact He; apply qmax_in01; [exact He | lits].
  - destruct (_ <? 60)%Z; [destruct (negb (mem (l_category st8) ["MUSIC"])) | destruct (_ >? 1200)%Z];
      cbn [l_depth]; unfold in01.
    + split; [apply qmin_ge; [assumption | apply Qle_lit; reflexivity] |].
      eapply Qle_trans; [apply qmin_le_r | apply Qle_lit; reflexivity].
    + split; [assumption |]. eapply Qle_trans; [exact Hd1 | apply Qle_lit; reflexivity].
    + split; [apply qmin_ge; [lra | apply Qle_lit; reflexivity] |].
      eapply Qle_trans; [apply qmin_le_r | apply Qle_lit; reflexivity].
    + split; [assumption |]. eapply Qle_trans; [exact Hd1 | apply Qle_lit; reflexivity].
  - apply Hcb, maybe_qmax_in01; [destruct (any_in clickbait_patterns _); lits | lits].
Qed.

End ClassifierFacts.


(* ------------------------------------------------------------------ *)
(** ** The policy engine *)

Module FilterFacts.
Import Py Filter FilterSpec.

Lemma str_app_assoc (a b c : string) : (a ++ b) ++ c = a ++ (b ++ c).
Proof. induction a as [|x a IH]; simpl; [reflexivity | now rewrite IH]. Qed.

Lemma prefix_app_cancel (s a b : string) : prefix (s ++ a) (s ++ b) = prefix a b.
Proof.
  induction s as [|x s IH]; simpl; [reflexivity |].
  destruct (ascii_dec x x) as [_|n]; [exact IH | contradiction n; reflexivity].
Qed.

Lemma prefix_empty (s : string) : prefix "" s = true.
Proof. destruct s; reflexivity. Qed.

Lemma str_app_empty_r (s : string) : s ++ "" = s.
Proof. induction s as [|x s IH]; simpl; [reflexivity | now rewrite IH]. Qed.

Lemma prefix_app (s t : string) : prefix s (s ++ t) = true.
Proof.
  rewrite <- (str_app_empty_r s) at 1. rewrite prefix_app_cancel. apply prefix_empty.
Qed.

Lemma app_cancel_l (s a b : string) : s ++ a = s ++ b -> a = b.
Proof. induction s as [|x s IH]; simpl; [auto | intros H; injection H; auto]. Qed.

Lemma first_blocked_keyword_none (kws : list string) (t d : string) :
  first_blocked_keyword kws t d = None <->
  existsb (fun kw => contains (lower kw) t || contains (lower kw) d)%bool kws = false.
Proof.
  induction kws as [|kw kws IH]; simpl; [tauto |].
  destruct (contains (lower kw) t || contains (lower kw) d)%bool; simpl;
    [split; discriminate | exact IH].
Qed.

Ltac decide_bools :=
  repeat match goal with
  | |- context [if ?b then _ else _] =>
      lazymatch b with
      | context [if _ then _ else _] => fail
      | _ => let E := fresh "E" in destruct b eqn:E
      end
  | |- context [match ?o with Some _ => _ | None => _ end] =>
      let E := fresh "E" in destruct o eqn:E
  end.

(** C2: when shorts are blocked, the video is a short and it is also shorter
    than the minimum duration, the shorts check fires: the verdict carries the
    shorts reason, not the minimum-duration reason. *)
Theorem check_video_shorts_before_duration (mode : FocusMode) (video : Video)
    (c : VideoClassification) :
  block_shorts mode = true -> v_is_short video = true ->
  (v_duration_seconds video < min_duration_seconds mode)%Z ->
  check_video mode video c = block shorts_reason
  /\ check_video mode video c <> block (too_short_reason (min_duration_seconds mode)).
Proof.
  intros Hs Hv Hd; unfold check_video; rewrite Hs, Hv; simpl.
  split; [reflexivity | unfold block; intros H; injection H; discriminate].
Qed.

Lemma check_video_shorts_before_duration_witness :
  check_video (preset_study "study") (mkVideo "w" "clip" "" [] "" 30 true "")
    (mkClassification "COMEDY" 0.6 0.9 0.1 0.1) = block shorts_reason
  /\ check_video (preset_study "study") (mkVideo "w" "clip" "" [] "" 30 true "")
       (mkClassification "COMEDY" 0.6 0.9 0.1 0.1)
     <> block (too_short_reason (min_duration_seconds (preset_study "study"))).
Proof.
  apply (check_video_shorts_before_duration (preset_study "study")
           (mkVideo "w" "clip" "" [] "" 30 true "") (mkClassification "COMEDY" 0.6 0.9 0.1 0.1));
    [reflexivity | reflexivity | simpl; lia].
Defined.


Ltac verdict_eq :=
  intros H; unfold block, allow in H;
  first [ discriminate H
        | injection H as H;
          first [ discriminate H
                | unfold category_blocked_reason, category_not_allowed_reason in H;
                  repeat apply app_cancel_l in H; discriminate H ]
        | idtac ].

Ltac nonempty_not_mem :=
  match goal with
  | E : (nonempty ?l && negb ?m)%bool = true |- _ =>
      let Ea := fresh "Ea" in let Eb := fresh "Eb" in
      apply andb_true_iff in E; destruct E as [Ea Eb]; apply negb_true_iff in Eb;
      split; [intros Hn; rewrite Hn in Ea; discriminate Ea | exact Eb]
  end.

(** C3: with empty allowed and blocked category lists the category checks
    never block (the category does not change the verdict and no category
    reason is returned); the allowed-categories check rejects only when the
    list is non-empty and the category is not in it; the blocked-categories
    check is evaluated before the allowed-categories check. *)
Theorem check_video_category_checks :
  (forall mode video c,
     allowed_categories mode = [] -> blocked_categories mode = [] ->
     (forall cat, check_video mode video (with_category c cat) = check_video mode video c)
     /\ (forall cat, reason (check_video mode video c) <> Some (category_blocked_reason cat)
                  /\ reason (check_video mode video c) <> Some (category_not_allowed_reason cat)))
  /\ (forall mode video c,
     check_video mode video c = block (category_not_allowed_reason (category c)) ->
     allowed_categories mode <> [] /\ mem (category c) (allowed_categories mode) = false)
  /\ (forall mode video c,
     (block_shorts mode && v_is_short video)%bool = false ->
     (min_duration_seconds mode <= v_duration_seconds video)%Z ->
     mem (category c) (blocked_categories mode) = false ->
     (check_video mode video c = block (category_not_allowed_reason (category c)) <->
      allowed_categories mode <> [] /\ mem (category c) (allowed_categories mode) = false))
  /\ (forall mode video c,
     (block_shorts mode && v_is_short video)%bool = false ->
     (min_duration_seconds mode <= v_duration_seconds video)%Z ->
     mem (category c) (blocked_categories mode) = true ->
     check_video mode video c = block (category_blocked_reason (category c))).
Proof.
  split; [|split; [|split]].
  - intros mode video c Ha Hb; split.
    + intros cat; unfold check_video; rewrite Ha, Hb; reflexivity.
    + intros cat; unfold check_video; rewrite Ha, Hb; simpl; decide_bools;
        split; simpl; try discriminate.
  - intros mode video c; unfold check_video; decide_bools; verdict_eq.
    nonempty_not_mem.
  - intros mode video c Hs Hd Hm; unfold check_video; rewrite Hs.
    assert (Hlt : (v_duration_seconds video <? min_duration_seconds mode)%Z = false)
      by (apply Z.ltb_ge; exact Hd).
    rewrite Hlt, Hm, andb_false_r; simpl.
    destruct (nonempty (allowed_categories mode)
              && negb (mem (category c) (allowed_categories mode)))%bool eqn:Ec.
    + split; [intros _ | reflexivity]. nonempty_not_mem.
    + split.
      * decide_bools; verdict_eq.
      * intros [Hn Hf]; rewrite Hf in Ec.
        destruct (allowed_categories mode); [contradiction | discriminate Ec].
  - intros mode video c Hs Hd Hm; unfold check_video; rewrite Hs.
    assert (Hlt : (v_duration_seconds video <? min_duration_seconds mode)%Z = false)
      by (apply Z.ltb_ge; exact Hd).
    assert (Hne : nonempty (blocked_categories mode) = true)
      by (destruct (blocked_categories mode); [discriminate Hm | reflexivity]).
    rewrite Hlt, Hm, Hne; reflexivity.
Qed.
Lemma first_blocked_keyword_some (kws : list string) (t d kw : string) :
  first_blocked_keyword kws t d = Some kw ->
  existsb (fun kw => contains (lower kw) t || contains (lower kw) d)%bool kws = true.
Proof.
  intros H; destruct (existsb _ kws) eqn:E; [reflexivity |].
  apply first_blocked_keyword_none in E; congruence.
Qed.

Ltac keyword_cases :=
  match goal with
  | E1 : first_blocked_keyword ?k ?t ?d = None, E2 : existsb _ ?k = true |- _ =>
      apply first_blocked_keyword_none in E1; congruence
  | E1 : first_blocked_keyword ?k ?t ?d = Some _, E2 : existsb _ ?k = false |- _ =>
      apply first_blocked_keyword_some in E1; congruence
  end.

Ltac blocked_verdict :=
  split; [cbn; split; discriminate |];
  split; [reflexivity |];
  eexists; split; [reflexivity |]; split; [discriminate |];
  cbn [rule_prefix];
  first [ reflexivity
        | apply prefix_app
        | unfold category_blocked_reason, category_not_allowed_reason, language_reason;
          rewrite !prefix_app_cancel; reflexivity ].

(** C4: every verdict is either allowed with no reason or blocked with a
    non-empty reason; when blocked, the reason names the first failing check
    of the specification's ordered list, and when no check fails the video is
    allowed. *)
Theorem check_video_verdict (mode : FocusMode) (video : Video) (c : VideoClassification) :
  (allowed (check_video mode video c) = true <-> reason (check_video mode video c) = None)
  /\ match first_failing mode video c with
     | None => check_video mode video c = allow
     | Some r =>
         allowed (check_video mode video c) = false
         /\ exists msg, reason (check_video mode video c) = Some msg /\ msg <> ""
                        /\ prefix (rule_prefix video c r) msg = true
     end.
Proof.
  unfold first_failing, all_rules, check_video; cbn [find rule_fails]; cbv zeta.
  destruct (nonempty (blocked_keywords mode)); cbn [andb].
  all: decide_bools; try keyword_cases.
  all: first [ split; [split; reflexivity | reflexivity] | blocked_verdict ].
Qed.


(** C8 (as stated): Scenario A yields category MUSIC and a block whose reason
    cites the category as not allowed.  False: the study preset lists MUSIC
    among its blocked categories, and that check fires first. *)
Lemma scenario_a_not_allowed_reason_counterexample :
  ~ (category (Classifier._fallback_classification scenario_a_video) = "MUSIC"
     /\ check_video (preset_study "study") scenario_a_video
          (Classifier._fallback_classification scenario_a_video)
        = block (category_not_allowed_reason "MUSIC")).
Proof. intros [_ H]; vm_compute in H; discriminate H. Qed.

(** C8 (amended): Scenario A under the study preset: the classifier yields
    MUSIC and the policy engine blocks the video with the blocked-category
    reason "Category 'MUSIC' is blocked in this focus mode". *)
Theorem scenario_a_study_blocks_music (id : string) :
  category (Classifier._fallback_classification scenario_a_video) = "MUSIC"
  /\ check_video (preset_study id) scenario_a_video
       (Classifier._fallback_classification scenario_a_video)
     = block (category_blocked_reason "MUSIC").
Proof. split; vm_compute; reflexivity. Qed.

End FilterFacts.

(* ------------------------------------------------------------------ *)
(** ** The session supervisor *)

Module FocusFacts.
Import Focus.

Lemma filter_all_false {A} (p : A -> bool) (l : list A) :
  (forall x, In x l -> p x = false) -> filter p l = [].
Proof.
  induction l as [|x l IH]; simpl; intros H; [reflexivity |].
  rewrite (H x (or_introl eq_refl)); apply IH; auto.
Qed.

Lemma activate_first_spec (mode_id : string) (l : Store) :
  (forall m, In m l -> is_locked m = false /\ lock_until m = None /\ is_active m = false) ->
  match activate_first mode_id l with
  | (l', Some t) =>
      (forall m, In m l' -> is_locked m = false /\ lock_until m = None)
      /\ filter is_active l' = [t] /\ fm_id t = mode_id
  | (_, None) => True
  end.
Proof.
  induction l as [|m l IH]; simpl; intros H; [exact I |].
  destruct (String.eqb (fm_id m) mode_id) eqn:Eid.
  - destruct (H m (or_introl eq_refl)) as (Hl & Hu & _).
    split; [| split].
    + intros x [<- | Hx]; [simpl; auto | destruct (H x (or_intror Hx)) as (? & ? & _); auto].
    + simpl; f_equal; apply filter_all_false; intros x Hx; apply (H x (or_intror Hx)).
    + simpl; apply String.eqb_eq; exact Eid.
  - specialize (IH (fun x Hx => H x (or_intror Hx))).
    destruct (activate_first mode_id l) as [l'' [t|]]; [| exact I].
    destruct IH as (IH1 & IH2 & IH3).
    destruct (H m (or_introl eq_refl)) as (Hl & Hu & Ha).
    split; [| split; [| exact IH3]].
    + intros x [<- | Hx]; auto.
    + simpl; rewrite Ha; exact IH2.
Qed.

(** C10: after a successful [activate_mode], every mode of the user is
    unlocked ([is_locked = false], [lock_until = None]), and the target, whose
    id is the requested one, is the only active mode. *)
Theorem activate_mode_postcondition (now : Z) (mode_id : string) (s s' : Store)
    (target : FocusMode) :
  activate_mode now mode_id s = (Ok target, s') ->
  (forall m, In m s' -> is_locked m = false /\ lock_until m = None)
  /\ filter is_active s' = [target] /\ fm_id target = mode_id.
Proof.
  unfold activate_mode.
  destruct (_get_locked_mode now s) as [[[locked|]|e] s1]; try discriminate.
  pose proof (activate_first_spec mode_id
                (map (fun m => clear_lock (set_active false m)) s1)) as Hspec.
  destruct (activate_first mode_id _) as [l' [t|]]; [| discriminate].
  intros H; injection H as <- <-.
  apply Hspec; intros m Hm; apply in_map_iff in Hm; destruct Hm as (x & <- & _).
  repeat split.
Qed.

Lemma activate_mode_postcondition_witness :
  (forall m, In m (snd (activate_mode 0 "b" [preset_study "a"; preset_relax "b"])) ->
             is_locked m = false /\ lock_until m = None)
  /\ filter is_active (snd (activate_mode 0 "b" [preset_study "a"; preset_relax "b"]))
     = [match fst (activate_mode 0 "b" [preset_study "a"; preset_relax "b"]) with
        | Ok t => t | Err _ => preset_relax "b" end]
  /\ fm_id (match fst (activate_mode 0 "b" [preset_study "a"; preset_relax "b"]) with
            | Ok t => t | Err _ => preset_relax "b" end) = "b".
Proof.
  apply (activate_mode_postcondition 0 "b" [preset_study "a"; preset_relax "b"]).
  vm_compute; reflexivity.
Defined.

(** The cleared-expired-lock store of [_get_locked_mode]. *)
Lemma clear_expired_no_lock (s : Store) :
  filter is_locked (map (fun x => if is_locked x then clear_lock x else x) s) = [].
Proof.
  apply filter_all_false; intros y Hy; apply in_map_iff in Hy.
  destruct Hy as (x & <- & _); destruct (is_locked x) eqn:E; [reflexivity | exact E].
Qed.

Lemma single_locked (s : Store) (m : FocusMode) :
  (length (filter is_locked s) <= 1)%nat -> In m s -> is_locked m = true ->
  filter is_locked s = [m].
Proof.
  intros Hlen Hm Hl.
  assert (Hin : In m (filter is_locked s)) by (apply filter_In; auto).
  destruct (filter is_locked s) as [|x [|y r]]; simpl in *; [contradiction | | lia].
  destruct Hin as [<- | []]; reflexivity.
Qed.

Lemma activate_first_absent (mode_id : string) (l : Store) :
  (forall m, In m l -> fm_id m <> mode_id) -> snd (activate_first mode_id l) = None.
Proof.
  induction l as [|m l IH]; simpl; intros H; [reflexivity |].
  destruct (String.eqb (fm_id m) mode_id) eqn:E.
  - apply String.eqb_eq in E; exfalso; exact (H m (or_introl eq_refl) E).
  - specialize (IH (fun x Hx => H x (or_intror Hx))).
    destruct (activate_first mode_id l) as [l'' t]; simpl in *; exact IH.
Qed.

(** Once [_get_locked_mode] found no live lock, [activate_mode] succeeds or
    fails with [ModeNotFound]. *)
Lemma activate_after_no_lock (now : Z) (mode_id : string) (s s1 : Store) :
  _get_locked_mode now s = (Ok None, s1) ->
  (fst (activate_mode now mode_id s) = Err ModeNotFound
     /\ (forall m, In m s1 -> fm_id m <> mode_id))
  \/ exists t, fst (activate_mode now mode_id s) = Ok t.
Proof.
  intros H; unfold activate_mode; rewrite H.
  destruct (activate_first mode_id _) as [l' [t|]] eqn:Ea; [right; exists t; reflexivity |].
  left; split; [reflexivity |].
  intros m Hm Hid.
  assert (Hin : In (clear_lock (set_active false m))
                  (map (fun m => clear_lock (set_active false m)) s1))
    by exact (in_map (fun m => clear_lock (set_active false m)) s1 m Hm).
  clear Hm; revert Ea Hin; generalize (map (fun m => clear_lock (set_active false m)) s1).
  intros l; revert l'; induction l as [|x l IH]; intros l' Ea Hin; [destruct Hin |].
  simpl in Ea; destruct (String.eqb (fm_id x) mode_id) eqn:E; [discriminate Ea |].
  destruct Hin as [-> | Hin].
  - simpl in E; rewrite Hid, String.eqb_refl in E; discriminate E.
  - destruct (activate_first mode_id l) as [l'' o] eqn:Ea'; injection Ea as _ Ho.
    subst o; exact (IH l'' eq_refl Hin).
Qed.

Lemma filter_length_mono {A} (p q : A -> bool) (l : list A) :
  (forall x, In x l -> p x = true -> q x = true) ->
  (length (filter p l) <= length (filter q l))%nat.
Proof.
  induction l as [|x l IH]; simpl; intros H; [lia |].
  specialize (IH (fun y Hy => H y (or_intror Hy))).
  destruct (p x) eqn:Ep; [rewrite (H x (or_introl eq_refl) Ep); simpl; lia |].
  destruct (q x); simpl; lia.
Qed.

Lemma filter_map_length {A} (p : A -> bool) (g : A -> A) (l : list A) :
  (forall x, p (g x) = p x) -> length (filter p (map g l)) = length (filter p l).
Proof.
  intros H; induction l as [|x l IH]; simpl; [reflexivity |].
  rewrite H; destruct (p x); simpl; congruence.
Qed.

Lemma supervisor_inv_at_most_one_locked (s : Store) :
  supervisor_inv s -> (length (filter is_locked s) <= 1)%nat.
Proof.
  intros [Hla Hact]; eapply Nat.le_trans; [| exact Hact].
  apply filter_length_mono; exact Hla.
Qed.

Lemma supervisor_inv_get_locked_mode (now : Z) (s : Store) :
  supervisor_inv s -> supervisor_inv (snd (_get_locked_mode now s)).
Proof.
  intros [Hla Hact]; unfold _get_locked_mode.
  destruct (scalar_one_or_none _) as [[m|]|e]; try (split; assumption).
  destruct (lock_until m) as [t|]; [destruct (now <? t)%Z|]; try (split; assumption).
  simpl snd; split.
  - intros y Hy; apply in_map_iff in Hy; destruct Hy as (x & <- & Hx).
    destruct (is_locked x) eqn:E; [discriminate | intros Hl; apply Hla; assumption].
  - rewrite filter_map_length; [exact Hact | intros x; destruct (is_locked x); reflexivity].
Qed.

Lemma supervisor_inv_activate_mode (now : Z) (mode_id : string) (s : Store) :
  supervisor_inv s -> supervisor_inv (snd (activate_mode now mode_id s)).
Proof.
  intros Hinv.
  pose proof (supervisor_inv_get_locked_mode now s Hinv) as Hinv1.
  unfold activate_mode.
  destruct (_get_locked_mode now s) as [[[locked|]|e] s1]; try exact Hinv1.
  pose proof (activate_first_spec mode_id
                (map (fun m => clear_lock (set_active false m)) s1)) as Hspec.
  destruct (activate_first mode_id _) as [l' [t|]]; [| exact Hinv1].
  destruct Hspec as (Hun & Hact & _).
  { intros m Hm; apply in_map_iff in Hm; destruct Hm as (x & <- & _); repeat split. }
  split.
  - intros m Hm Hl; rewrite (proj1 (Hun m Hm)) in Hl; discriminate Hl.
  - simpl; rewrite Hact; simpl; lia.
Qed.

Lemma supervisor_inv_lock_session (now : Z) (mode_id : string) (d : Z) (s : Store) :
  supervisor_inv s -> supervisor_inv (snd (lock_session now mode_id d s)).
Proof.
  intros [Hla Hact]; unfold lock_session.
  destruct (filter (fun m => String.eqb (fm_id m) mode_id) s) as [|m [|m' r]] eqn:Ef;
    simpl; try (split; assumption).
  destruct (is_active m) eqn:Ea; simpl; [| split; assumption].
  split.
  - intros y Hy; unfold update_id in Hy; apply in_map_iff in Hy.
    destruct Hy as (x & <- & Hx).
    destruct (String.eqb (fm_id x) mode_id) eqn:Ex; [| apply Hla; exact Hx].
    assert (Hxm : In x [m]) by (rewrite <- Ef; apply filter_In; auto).
    destruct Hxm as [-> | []]; intros _; exact Ea.
  - unfold update_id; rewrite filter_map_length; [exact Hact |].
    intros x; destruct (String.eqb (fm_id x) mode_id); reflexivity.
Qed.

Lemma supervisor_inv_unlock_session (mode_id : string) (s : Store) :
  supervisor_inv s -> supervisor_inv (snd (unlock_session mode_id s)).
Proof.
  intros [Hla Hact]; unfold unlock_session.
  destruct (filter (fun m => String.eqb (fm_id m) mode_id) s) as [|m [|m' r]];
    simpl; try (split; assumption).
  split.
  - intros y Hy; unfold update_id in Hy; apply in_map_iff in Hy.
    destruct Hy as (x & <- & Hx).
    destruct (String.eqb (fm_id x) mode_id); [discriminate | apply Hla; exact Hx].
  - unfold update_id; rewrite filter_map_length; [exact Hact |].
    intros x; destruct (String.eqb (fm_id x) mode_id); reflexivity.
Qed.

(** C5: with at most one mode locked (the invariant [lock_session] and
    [activate_mode] maintain, see [supervisor_inv_at_most_one_locked] and the
    preservation lemmas before this theorem), [activate_mode] fails with the locked-mode error naming the
    locked mode whenever some mode of the user is locked with [lock_until]
    strictly after [now], whichever mode is the target; a lock whose
    [lock_until] is at or before [now] causes no such error and is cleared
    ([is_locked = false], [lock_until = None]) by the lock check; and when no
    lock is live and no mode of the user has the requested id, it fails with
    [ModeNotFound]. *)
Theorem activate_mode_lock_gate (now : Z) (mode_id : string) (s : Store) :
  (length (filter is_locked s) <= 1)%nat ->
  (forall m t, In m s -> is_locked m = true -> lock_until m = Some t -> (now < t)%Z ->
     fst (activate_mode now mode_id s) = Err (ModeLocked (name m) t))
  /\ (forall m t, In m s -> is_locked m = true -> lock_until m = Some t -> (t <= now)%Z ->
     (forall nm u, fst (activate_mode now mode_id s) <> Err (ModeLocked nm u))
     /\ fst (_get_locked_mode now s) = Ok None
     /\ In (clear_lock m) (snd (_get_locked_mode now s))
     /\ filter is_locked (snd (_get_locked_mode now s)) = [])
  /\ ((forall m t, In m s -> is_locked m = true -> lock_until m = Some t -> (t <= now)%Z) ->
      (forall m, In m s -> fm_id m <> mode_id) ->
      fst (activate_mode now mode_id s) = Err ModeNotFound).
Proof.
  intros Hlen; split; [| split].
  - intros m t Hm Hl Hu Ht.
    unfold activate_mode, _get_locked_mode.
    rewrite (single_locked s m Hlen Hm Hl); simpl; rewrite Hu.
    apply Z.ltb_lt in Ht; rewrite Ht; simpl; rewrite Hu; reflexivity.
  - intros m t Hm Hl Hu Ht.
    assert (Hg : _get_locked_mode now s
                 = (Ok None, map (fun x => if is_locked x then clear_lock x else x) s)).
    { unfold _get_locked_mode; rewrite (single_locked s m Hlen Hm Hl); simpl; rewrite Hu.
      apply Z.ltb_ge in Ht; rewrite Ht; reflexivity. }
    split; [| rewrite Hg; split; [reflexivity | split]].
    + intros nm u; destruct (activate_after_no_lock now mode_id s _ Hg) as [[-> _] | [t' ->]];
        discriminate.
    + apply in_map_iff; exists m; rewrite Hl; auto.
    + apply clear_expired_no_lock.
  - intros Hnolive Hid.
    assert (Hg : exists s1, _get_locked_mode now s = (Ok None, s1)
                            /\ forall x, In x s1 -> exists y, In y s /\ fm_id x = fm_id y).
    { unfold _get_locked_mode.
      destruct (filter is_locked s) as [|m [|m' r]] eqn:Ef; simpl in Hlen |- *;
        [| | lia]; [exists s; split; [reflexivity | eauto] |].
      assert (Hm : In m s /\ is_locked m = true)
        by (apply filter_In; rewrite Ef; left; reflexivity).
      destruct Hm as [Hm Hl].
      destruct (lock_until m) as [t|] eqn:Hu; [| exists s; split; [reflexivity | eauto]].
      pose proof (Hnolive m t Hm Hl Hu) as Ht; apply Z.ltb_ge in Ht; rewrite Ht.
      eexists; split; [reflexivity |].
      intros x Hx; apply in_map_iff in Hx; destruct Hx as (y & <- & Hy).
      exists y; split; [exact Hy | destruct (is_locked y); reflexivity]. }
    destruct Hg as (s1 & Hg & Hids).
    destruct (activate_after_no_lock now mode_id s s1 Hg) as [[Hnf _] | [t Hok]];
      [exact Hnf |].
    exfalso; unfold activate_mode in Hok; rewrite Hg in Hok.
    assert (Habs : snd (activate_first mode_id
                          (map (fun m => clear_lock (set_active false m)) s1)) = None).
    { apply activate_first_absent.
      intros x Hx; apply in_map_iff in Hx; destruct Hx as (y & <- & Hy).
      destruct (Hids y Hy) as (z & Hz & Hyz); simpl; rewrite Hyz; exact (Hid z Hz). }
    destruct (activate_first mode_id _) as [l' o]; simpl in Habs; subst o.
    discriminate Hok.
Qed.

Lemma activate_mode_lock_gate_witness :
  (forall m t, In m [preset_study "a"; set_lock true (Some 2800%Z) (set_active true (preset_relax "b"))] -> is_locked m = true -> lock_until m = Some t ->
     (1500 < t)%Z ->
     fst (activate_mode 1500 "a" [preset_study "a"; set_lock true (Some 2800%Z) (set_active true (preset_relax "b"))]) = Err (ModeLocked (name m) t))
  /\ (forall m t, In m [preset_study "a"; set_lock true (Some 2800%Z) (set_active true (preset_relax "b"))] -> is_locked m = true -> lock_until m = Some t ->
     (t <= 1500)%Z ->
     (forall nm u, fst (activate_mode 1500 "a" [preset_study "a"; set_lock true (Some 2800%Z) (set_active true (preset_relax "b"))]) <> Err (ModeLocked nm u))
     /\ fst (_get_locked_mode 1500 [preset_study "a"; set_lock true (Some 2800%Z) (set_active true (preset_relax "b"))]) = Ok None
     /\ In (clear_lock m) (snd (_get_locked_mode 1500 [preset_study "a"; set_lock true (Some 2800%Z) (set_active true (preset_relax "b"))]))
     /\ filter is_locked (snd (_get_locked_mode 1500 [preset_study "a"; set_lock true (Some 2800%Z) (set_active true (preset_relax "b"))])) = [])
  /\ ((forall m t, In m [preset_study "a"; set_lock true (Some 2800%Z) (set_active true (preset_relax "b"))] -> is_locked m = true -> lock_until m = Some t ->
         (t <= 1500)%Z) ->
      (forall m, In m [preset_study "a"; set_lock true (Some 2800%Z) (set_active true (preset_relax "b"))] -> fm_id m <> "a") ->
      fst (activate_mode 1500 "a" [preset_study "a"; set_lock true (Some 2800%Z) (set_active true (preset_relax "b"))]) = Err ModeNotFound).
Proof.
  apply (activate_mode_lock_gate 1500 "a" [preset_study "a"; set_lock true (Some 2800%Z) (set_active true (preset_relax "b"))]); simpl; lia.
Defined.

(** SCENARIO D: a live lock on another mode blocks the activation. *)
Example scenario_d_locked :
  fst (activate_mode 1500 "a"
         [preset_study "a"; set_lock true (Some 2800%Z) (set_active true (preset_relax "b"))])
  = Err (ModeLocked "Relax Mode" 2800).
Proof. reflexivity. Qed.

Lemma day_start_le_iff (now w : Z) :
  (w <= now)%Z -> (day_start now <=? w)%Z = TimeSpec.same_utc_day w now.
Proof.
  intros Hw; unfold day_start, TimeSpec.same_utc_day.
  pose proof (Z.div_mod now 86400 ltac:(lia)) as Hn.
  pose proof (Z.mod_pos_bound now 86400 ltac:(lia)) as Hnr.
  pose proof (Z.div_mod w 86400 ltac:(lia)) as Hw'.
  pose proof (Z.mod_pos_bound w 86400 ltac:(lia)) as Hwr.
  destruct (now / 86400 * 86400 <=? w)%Z eqn:E1; destruct (w / 86400 =? now / 86400)%Z eqn:E2;
    try reflexivity; exfalso.
  - apply Z.leb_le in E1; apply Z.eqb_neq in E2; lia.
  - apply Z.leb_gt in E1; apply Z.eqb_eq in E2; lia.
Qed.

Lemma sum_today_spec (now : Z) (user_id : string) (h : list WatchHistory) :
  (forall w, In w h -> (watched_at w <= now)%Z) ->
  sum_today now user_id h = TimeSpec.today_seconds now user_id h.
Proof.
  intros Hh; unfold sum_today, TimeSpec.today_seconds; do 2 f_equal.
  apply filter_ext_in; intros w Hw; rewrite day_start_le_iff; [reflexivity | auto].
Qed.

(** C6: with every watch record stamped no later than [now] (records take
    [datetime.utcnow()] on insertion), [check_time_limit] for a configured
    limit [l] (non-zero; the schemas require [l >= 1]) sums the user's watch
    seconds of the current UTC day, reports [used_minutes] = that sum [// 60],
    [exceeded] = (used >= l) and [remaining_minutes] = max(0, l - used); with
    limit 60 and 4200 seconds it reports exceeded and 0 minutes remaining; a
    mode without a limit reports [has_limit = false] and no numeric bounds. *)
Theorem check_time_limit_today (now : Z) (user_id : string) (h : list WatchHistory)
    (mode : FocusMode) :
  (forall w, In w h -> (watched_at w <= now)%Z) ->
  (forall l, daily_time_limit_minutes mode = Some l -> l <> 0%Z ->
     let r := check_time_limit now user_id h mode in
     let used := (TimeSpec.today_seconds now user_id h / 60)%Z in
     has_limit r = true /\ used_minutes r = used /\ exceeded r = (l <=? used)%Z
     /\ limit_minutes r = Some l /\ remaining_minutes r = Some (Z.max 0 (l - used)))
  /\ (daily_time_limit_minutes mode = Some 60%Z ->
      TimeSpec.today_seconds now user_id h = 4200%Z ->
      exceeded (check_time_limit now user_id h mode) = true
      /\ remaining_minutes (check_time_limit now user_id h mode) = Some 0%Z)
  /\ (daily_time_limit_minutes mode = None ->
      has_limit (check_time_limit now user_id h mode) = false
      /\ limit_minutes (check_time_limit now user_id h mode) = None
      /\ remaining_minutes (check_time_limit now user_id h mode) = None).
Proof.
  intros Hh; split; [| split].
  - intros l Hl Hnz; cbv zeta; unfold check_time_limit; rewrite Hl, (sum_today_spec _ _ _ Hh).
    destruct l; [contradiction | repeat split ..].
  - intros Hl Hs; unfold check_time_limit; rewrite Hl, (sum_today_spec _ _ _ Hh), Hs.
    split; reflexivity.
  - intros Hl; unfold check_time_limit; rewrite Hl; repeat split.
Qed.

(** C9: a limit of exactly 0 is treated as no limit at all, whatever the
    user watched today. *)
Theorem check_time_limit_zero (now : Z) (user_id : string) (h : list WatchHistory)
    (mode : FocusMode) :
  daily_time_limit_minutes mode = Some 0%Z ->
  check_time_limit now user_id h mode = mkTimeLimit false false 0 None None.
Proof. intros Hl; unfold check_time_limit; rewrite Hl; reflexivity. Qed.

Lemma check_time_limit_zero_witness :
  check_time_limit 100000 "u" [mkWatch "u" 4200 90000]
    (preset_mode "z" "Zero" [] [] 0 1.0 1.0 false false (Some 0%Z) [])
  = mkTimeLimit false false 0 None None.
Proof. apply check_time_limit_zero; reflexivity. Defined.

Lemma check_time_limit_today_witness :
  (forall l, daily_time_limit_minutes (preset_deep_work "d") = Some l -> l <> 0%Z ->
     let r := check_time_limit 100000 "u" [mkWatch "u" 4200 90000] (preset_deep_work "d") in
     let used := (TimeSpec.today_seconds 100000 "u" [mkWatch "u" 4200 90000] / 60)%Z in
     has_limit r = true /\ used_minutes r = used /\ exceeded r = (l <=? used)%Z
     /\ limit_minutes r = Some l /\ remaining_minutes r = Some (Z.max 0 (l - used)))
  /\ (daily_time_limit_minutes (preset_deep_work "d") = Some 60%Z ->
      TimeSpec.today_seconds 100000 "u" [mkWatch "u" 4200 90000] = 4200%Z ->
      exceeded (check_time_limit 100000 "u" [mkWatch "u" 4200 90000] (preset_deep_work "d")) = true
      /\ remaining_minutes (check_time_limit 100000 "u" [mkWatch "u" 4200 90000]
                              (preset_deep_work "d")) = Some 0%Z)
  /\ (daily_time_limit_minutes (preset_deep_work "d") = None ->
      has_limit (check_time_limit 100000 "u" [mkWatch "u" 4200 90000] (preset_deep_work "d")) = false
      /\ limit_minutes (check_time_limit 100000 "u" [mkWatch "u" 4200 90000]
                          (preset_deep_work "d")) = None
      /\ remaining_minutes (check_time_limit 100000 "u" [mkWatch "u" 4200 90000]
                              (preset_deep_work "d")) = None).
Proof.
  apply check_time_limit_today; intros w [<- | []]; simpl; lia.
Defined.

End FocusFacts.

(* ------------------------------------------------------------------ *)
(** ** Personalized re-ranking *)

Module RankFacts.
Import Py Floats Personalization RankSpec.
#[local] Set Warnings "-inexact-float".

(** *** The order of doubles *)







(** *** The insertion sort *)

Definition desc (a b : Scored) : Prop := (snd b <=? snd a)%float = true.









(** *** The ranking *)





End RankFacts.

(* ------------------------------------------------------------------ *)
(** ** ISO 8601 durations and Shorts detection *)

Module YouTubeFacts.
Import Py YouTube DurationSpec.

Fixpoint all_digits (s : string) : bool :=
  match s with
  | EmptyString => true
  | String c s' => (is_digit c && all_digits s')%bool
  end.

Lemma int_of_digits_aux_app (a : Z) (x y : string) :
  int_of_digits_aux a (x ++ y) = int_of_digits_aux (int_of_digits_aux a x) y.
Proof. revert a; induction x as [| c x IH]; intros a; simpl; [reflexivity | apply IH]. Qed.

Lemma all_digits_app (x y : string) :
  all_digits (x ++ y) = (all_digits x && all_digits y)%bool.
Proof.
  induction x as [| c x IH]; simpl; [reflexivity |]; rewrite IH; apply andb_assoc.
Qed.

Lemma digit_spec (d : Z) :
  (0 <= d < 10)%Z ->
  is_digit (Fmt.digit d) = true
  /\ (Z.of_nat (nat_of_ascii (Fmt.digit d)) - 48 = d)%Z.
Proof.
  intros Hd; unfold Fmt.digit, is_digit.
  rewrite nat_ascii_embedding by lia.
  split; [apply andb_true_intro; split; apply Nat.leb_le; lia | lia].
Qed.

Lemma one_digit_spec (n : Z) (acc : string) :
  (0 <= n < 10)%Z ->
  exists d, String (Fmt.digit (n mod 10)) acc = d ++ acc /\ all_digits d = true
            /\ d <> EmptyString /\ int_of_digits d = n.
Proof.
  intros Hn.
  assert (Hd : (0 <= n mod 10 < 10)%Z) by (apply Z.mod_pos_bound; lia).
  destruct (digit_spec _ Hd) as [Hdig Hval].
  exists (String (Fmt.digit (n mod 10)) EmptyString); split; [reflexivity |].
  split; [cbn [all_digits]; rewrite Hdig; reflexivity |].
  split; [discriminate |].
  unfold int_of_digits; cbn [int_of_digits_aux]; rewrite Hval.
  rewrite Z.mod_small by lia; lia.
Qed.

Lemma digits_aux_spec (f : nat) : forall (n : Z) (acc : string),
  (0 <= n)%Z -> (n < 10 ^ Z.of_nat (S f))%Z ->
  exists d, Fmt.digits_aux (S f) n acc = d ++ acc /\ all_digits d = true
            /\ d <> EmptyString /\ int_of_digits d = n.
Proof.
  induction f as [| f IH]; intros n acc Hn Hlt.
  - change (10 ^ Z.of_nat 1)%Z with 10%Z in Hlt.
    change (Fmt.digits_aux 1 n acc) with
      (let acc' := String (Fmt.digit (n mod 10)) acc in
       if (n <? 10)%Z then acc' else Fmt.digits_aux 0 (n / 10) acc').
    cbv zeta; replace (n <? 10)%Z with true by (symmetry; apply Z.ltb_lt; lia).
    apply one_digit_spec; lia.
  - assert (Hd : (0 <= n mod 10 < 10)%Z) by (apply Z.mod_pos_bound; lia).
    destruct (digit_spec _ Hd) as [Hdig Hval].
    change (Fmt.digits_aux (S (S f)) n acc) with
      (let acc' := String (Fmt.digit (n mod 10)) acc in
       if (n <? 10)%Z then acc' else Fmt.digits_aux (S f) (n / 10) acc').
    cbv zeta; destruct (n <? 10)%Z eqn:E.
    + apply Z.ltb_lt in E; apply one_digit_spec; lia.
    + apply Z.ltb_ge in E.
      destruct (IH (n / 10)%Z (String (Fmt.digit (n mod 10)) acc)) as (d & Hd1 & Hd2 & Hd3 & Hd4).
      * apply Z.div_pos; lia.
      * apply Z.div_lt_upper_bound; [lia |].
        rewrite Nat2Z.inj_succ in Hlt |- *; rewrite Z.pow_succ_r in Hlt by lia; lia.
      * exists (d ++ String (Fmt.digit (n mod 10)) EmptyString).
        split; [rewrite Hd1; clear; induction d as [| c d IH]; [reflexivity | cbn [append]; now rewrite IH] |].
        split; [rewrite all_digits_app, Hd2; cbn [all_digits andb]; rewrite Hdig; reflexivity |].
        split; [destruct d; [contradiction | discriminate] |].
        unfold int_of_digits in *; rewrite int_of_digits_aux_app, Hd4; cbn [int_of_digits_aux].
        rewrite Hval; pose proof (Z.div_mod n 10 ltac:(lia)); lia.
Qed.

Lemma int_str_spec (n : Z) :
  (0 <= n)%Z ->
  all_digits (Fmt.int_str n) = true /\ Fmt.int_str n <> EmptyString
  /\ int_of_digits (Fmt.int_str n) = n.
Proof.
  intros Hn; unfold Fmt.int_str.
  replace (n <? 0)%Z with false by (symmetry; apply Z.ltb_ge; lia).
  unfold Fmt.nat_digits.
  destruct (digits_aux_spec (Z.to_nat (Z.log2 n)) n EmptyString) as (d & H1 & H2 & H3 & H4).
  - exact Hn.
  - rewrite Nat2Z.inj_succ, Z2Nat.id by apply Z.log2_nonneg.
    destruct (Z.eq_dec n 0) as [-> | Hnz]; [reflexivity |].
    destruct (Z.log2_spec n ltac:(lia)) as [_ Hup].
    eapply Z.lt_le_trans; [exact Hup |].
    apply Z.pow_le_mono_l; split; [lia | lia].
  - rewrite H1, FilterFacts.str_app_empty_r; auto.
Qed.

Lemma span_digits_app (d : string) (c : ascii) (r : string) :
  all_digits d = true -> is_digit c = false -> span_digits (d ++ String c r) = (d, String c r).
Proof.
  induction d as [| x d IH]; intros Hd Hc; cbn [append span_digits].
  - rewrite Hc; reflexivity.
  - cbn [all_digits] in Hd; apply andb_prop in Hd as [Hx Hd].
    rewrite Hx, IH by assumption; reflexivity.
Qed.

Lemma opt_group_hit (l : ascii) (n : Z) (r : string) :
  (0 <= n)%Z -> is_digit l = false ->
  opt_group l (Fmt.int_str n ++ String l r) = (Some (Fmt.int_str n), r).
Proof.
  intros Hn Hl; destruct (int_str_spec n Hn) as (H1 & H2 & _).
  unfold opt_group; rewrite span_digits_app by assumption.
  destruct (Fmt.int_str n) as [| x d]; [contradiction |].
  rewrite Ascii.eqb_refl; reflexivity.
Qed.

Lemma opt_group_miss (l l' : ascii) (n : Z) (r : string) :
  (0 <= n)%Z -> is_digit l' = false -> Ascii.eqb l' l = false ->
  opt_group l (Fmt.int_str n ++ String l' r) = (None, Fmt.int_str n ++ String l' r).
Proof.
  intros Hn Hl Hne; destruct (int_str_spec n Hn) as (H1 & H2 & _).
  unfold opt_group; rewrite span_digits_app by assumption.
  destruct (Fmt.int_str n) as [| x d]; [contradiction |].
  rewrite Hne; reflexivity.
Qed.

Lemma opt_group_empty (l : ascii) : opt_group l EmptyString = (None, EmptyString).
Proof. reflexivity. Qed.

Lemma group_int_str (n : Z) : (0 <= n)%Z -> group_int (Some (Fmt.int_str n)) = n.
Proof. intros Hn; apply (int_str_spec n Hn). Qed.

Ltac dur_step :=
  first
    [ rewrite opt_group_hit by first [assumption | reflexivity]
    | rewrite opt_group_miss by first [assumption | reflexivity]
    | rewrite opt_group_empty ];
  cbv beta iota.

(** The parser reads back every duration "PT[<h>H][<m>M][<s>S]" with
    non-negative components: the value is h*3600 + m*60 + s, a missing
    component counting 0. *)
Theorem parse_duration_format (h m s : option Z) :
  (forall n, h = Some n -> 0 <= n)%Z -> (forall n, m = Some n -> 0 <= n)%Z ->
  (forall n, s = Some n -> 0 <= n)%Z ->
  _parse_duration (format_duration h m s)
  = (component h * 3600 + component m * 60 + component s)%Z.
Proof.
  intros Hh Hm Hs; unfold format_duration, comp.
  change ("PT" ++ ?x) with (String "P" (String "T" x)).
  unfold _parse_duration; cbv beta iota.
  destruct h as [nh |]; [specialize (Hh nh eq_refl) | clear Hh].
  all: destruct m as [nm |]; [specialize (Hm nm eq_refl) | clear Hm].
  all: destruct s as [ns |]; [specialize (Hs ns eq_refl) | clear Hs].
  all: repeat dur_step; cbn [component];
  rewrite ?group_int_str by assumption; cbn [group_int]; lia.
Qed.

Lemma parse_duration_parse_witness :
  _parse_duration (format_duration (Some 1%Z) None (Some 30%Z)) = 3630%Z.
Proof.
  rewrite (parse_duration_format (Some 1%Z) None (Some 30%Z));
    [reflexivity | intros n Hn; injection Hn as <-; lia | intros n Hn; discriminate
    | intros n Hn; injection Hn as <-; lia].
Defined.

(** A duration string that does not start with "PT" (a day-long
    "P1DT2H", a week "P1W") does not match the pattern and is read as 0
    seconds, so [_is_short] classifies the video as a Short whatever its
    title. *)
Theorem parse_duration_not_pt (duration title : string) :
  prefix "PT" duration = false ->
  _parse_duration duration = 0%Z /\ _is_short (_parse_duration duration) title = true.
Proof.
  intros Hp.
  assert (H0 : _parse_duration duration = 0%Z).
  { destruct duration as [| c [| c' r]]; [reflexivity | |].
    - destruct c as [[] [] [] [] [] [] [] []]; reflexivity.
    - destruct (ascii_dec c "P") as [-> | Hc].
      + destruct (ascii_dec c' "T") as [-> | Hc'].
        * change (prefix "PT" (String "P" (String "T" r))) with (prefix "" r) in Hp.
          rewrite FilterFacts.prefix_empty in Hp; discriminate.
        * destruct c' as [[] [] [] [] [] [] [] []]; try reflexivity.
          exfalso; apply Hc'; reflexivity.
      + destruct c as [[] [] [] [] [] [] [] []]; try reflexivity.
        exfalso; apply Hc; reflexivity. }
  split; [exact H0 | rewrite H0; reflexivity].
Qed.

Lemma parse_duration_not_pt_witness :
  _parse_duration "P1DT2H" = 0%Z /\ _is_short (_parse_duration "P1DT2H") "Lecture" = true.
Proof. apply parse_duration_not_pt; reflexivity. Defined.

Lemma prefix_app_l (s1 s2 h : string) : prefix (s1 ++ s2) h = true -> prefix s1 h = true.
Proof.
  revert h; induction s1 as [| a s1 IH]; intros h H; [apply FilterFacts.prefix_empty |].
  destruct h as [| b h]; [discriminate |].
  cbn [append prefix] in H |- *.
  destruct (ascii_dec a b); [apply IH; exact H | discriminate].
Qed.

Lemma contains_app_l (s1 s2 h : string) : contains (s1 ++ s2) h = true -> contains s1 h = true.
Proof.
  induction h as [| b h IH]; intros H; cbn [contains] in H |- *.
  - destruct (prefix (s1 ++ s2) "") eqn:E; [rewrite (prefix_app_l _ _ _ E); reflexivity | discriminate].
  - destruct (prefix (s1 ++ s2) (String b h)) eqn:E.
    + rewrite (prefix_app_l _ _ _ E); reflexivity.
    + destruct (prefix s1 (String b h)); [reflexivity | exact (IH H)].
Qed.

(** [_is_short] holds exactly for durations up to 60 seconds and for titles
    whose lower-cased form contains "#short" anywhere (so also "#shortcut");
    the "#shorts" test adds nothing. *)
Theorem is_short_spec (duration_seconds : Z) (title : string) :
  _is_short duration_seconds title
  = ((duration_seconds <=? 60)%Z || contains "#short" (lower title))%bool.
Proof.
  unfold _is_short; destruct (duration_seconds <=? 60)%Z; [reflexivity |]; cbn [orb].
  destruct (contains "#short" (lower title)) eqn:E; rewrite ?orb_true_r; [reflexivity |].
  destruct (contains "#shorts" (lower title)) eqn:E'; [| reflexivity].
  change "#shorts" with ("#short" ++ "s") in E'.
  rewrite (contains_app_l _ _ _ E') in E; discriminate.
Qed.

End YouTubeFacts.

(* ------------------------------------------------------------------ *)
(** ** Normalisation of the Gemini answer *)

Module AIFacts.
Import Py AI Bounds.

Lemma mem_In (x : string) (xs : list string) : mem x xs = true <-> In x xs.
Proof.
  unfold mem; rewrite existsb_exists; split.
  - intros (y & Hy & E); apply String.eqb_eq in E; subst; exact Hy.
  - intros H; exists x; split; [exact H | apply String.eqb_refl].
Qed.

Lemma Qle_bool_false (x y : Q) : Qle_bool x y = false -> y < x.
Proof.
  intros E; apply Qnot_le_lt; intros H; apply Qle_bool_iff in H; congruence.
Qed.

Ltac qcase b :=
  let E := fresh "E" in
  destruct b eqn:E; [apply Qle_bool_iff in E | apply Qle_bool_false in E].

Lemma clamp01_in01 (x : Q) : in01 (clamp01 x).
Proof.
  unfold clamp01, qmin, qmax, in01.
  qcase (Qle_bool x 0.0); [qcase (Qle_bool 1.0 0.0) | qcase (Qle_bool 1.0 x)]; lra.
Qed.

Lemma clamp01_id (x : Q) : in01 x -> clamp01 x == x.
Proof.
  unfold clamp01, qmin, qmax, in01; intros [H0 H1].
  qcase (Qle_bool x 0.0); [qcase (Qle_bool 1.0 0.0) | qcase (Qle_bool 1.0 x)]; lra.
Qed.

Lemma normalize_category (r : AIResult) : In (category (normalize r)) CATEGORIES.
Proof.
  unfold normalize; cbn [category].
  destruct (mem (upper (get_or (r_category r) "ENTERTAINMENT")) CATEGORIES) eqn:E.
  - apply mem_In; exact E.
  - simpl; tauto.
Qed.

(** Whatever the answer holds, the normalised classification has one of the
    ten [CATEGORIES] (so never "COMEDY", "SCIENCE_TECH" or "HOWTO_STYLE", the
    preset modes' other categories) and all four scores in [0, 1]. *)
Theorem normalize_ranges (r : AIResult) :
  In (category (normalize r)) CATEGORIES
  /\ ~ In (category (normalize r)) ["COMEDY"; "SCIENCE_TECH"; "HOWTO_STYLE"]
  /\ in01 (confidence_score (normalize r)) /\ in01 (entertainment_score (normalize r))
  /\ in01 (depth_score (normalize r)) /\ in01 (clickbait_score (normalize r)).
Proof.
  split; [apply normalize_category |].
  split; [| unfold normalize; cbn [confidence_score entertainment_score depth_score
                                    clickbait_score]; repeat split; apply clamp01_in01].
  pose proof (normalize_category r) as H; intros H'.
  destruct H' as [E | [E | [E | []]]]; rewrite <- E in H; simpl in H;
    repeat (destruct H as [H | H]; [discriminate |]); exact H.
Qed.

Lemma upper_categories (c : string) : In c CATEGORIES -> upper c = c.
Proof.
  intros H; repeat (destruct H as [<- | H]; [reflexivity |]); destruct H.
Qed.

(** An answer that already holds a known category and four scores in
    [0, 1] passes through unchanged. *)
Theorem normalize_valid (c : string) (x1 x2 x3 x4 : Q) :
  In c CATEGORIES -> in01 x1 -> in01 x2 -> in01 x3 -> in01 x4 ->
  let v := normalize (mkAIResult (Some c) (Some x1) (Some x2) (Some x3) (Some x4)) in
  category v = c /\ confidence_score v == x1 /\ entertainment_score v == x2
  /\ depth_score v == x3 /\ clickbait_score v == x4.
Proof.
  intros Hc H1 H2 H3 H4; cbv zeta; unfold normalize; cbn [get_or r_category
    r_confidence_score r_entertainment_score r_depth_score r_clickbait_score
    category confidence_score entertainment_score depth_score clickbait_score].
  rewrite (upper_categories c Hc), (proj2 (mem_In c CATEGORIES) Hc).
  split; [reflexivity |].
  split; [| split; [| split]]; apply clamp01_id; assumption.
Qed.

Lemma normalize_valid_witness :
  In "TECH" CATEGORIES /\ in01 0.9 /\ in01 0.2 /\ in01 0.7 /\ in01 0.1 /\
  (let v := normalize (mkAIResult (Some "TECH") (Some 0.9) (Some 0.2) (Some 0.7) (Some 0.1)) in
   category v = "TECH" /\ confidence_score v == 0.9 /\ entertainment_score v == 0.2
   /\ depth_score v == 0.7 /\ clickbait_score v == 0.1).
Proof.
  assert (Hc : In "TECH" CATEGORIES) by (simpl; tauto).
  assert (H1 : in01 0.9) by (unfold in01; lra).
  assert (H2 : in01 0.2) by (unfold in01; lra).
  assert (H3 : in01 0.7) by (unfold in01; lra).
  assert (H4 : in01 0.1) by (unfold in01; lra).
  repeat (split; [assumption |]).
  exact (normalize_valid "TECH" 0.9 0.2 0.7 0.1 Hc H1 H2 H3 H4).
Defined.

Lemma check_video_allowed_category (mode : FocusMode) (video : Video) (c : VideoClassification) :
  allowed (Filter.check_video mode video c) = true ->
  Filter.nonempty (allowed_categories mode) = true ->
  mem (category c) (allowed_categories mode) = true.
Proof.
  intros H Hne; unfold Filter.check_video in H; cbv zeta in H.
  destruct (mem (category c) (allowed_categories mode)) eqn:E; [reflexivity |].
  rewrite Hne in H; cbn [andb negb] in H.
  destruct (block_shorts mode && v_is_short video)%bool; [discriminate |].
  destruct (v_duration_seconds video <? min_duration_seconds mode)%Z; [discriminate |].
  destruct (Filter.nonempty (blocked_categories mode)
            && mem (category c) (blocked_categories mode))%bool; discriminate.
Qed.

(** Under the deep-work preset (allowed: EDUCATION and SCIENCE_TECH), a
    video classified from a Gemini answer passes the policy engine only with
    category EDUCATION: the normalisation never yields SCIENCE_TECH. *)
Theorem deep_work_ai_only_education (id : string) (video : Video) (r : AIResult) :
  allowed (Filter.check_video (preset_deep_work id) video (normalize r)) = true ->
  category (normalize r) = "EDUCATION".
Proof.
  intros H.
  pose proof (check_video_allowed_category _ _ _ H eq_refl) as Hm.
  apply mem_In in Hm; pose proof (normalize_category r) as Hc.
  destruct Hm as [Hm | [Hm | []]]; [now symmetry | exfalso].
  rewrite <- Hm in Hc; simpl in Hc; repeat (destruct Hc as [Hc | Hc]; [discriminate |]); exact Hc.
Qed.

Lemma deep_work_ai_only_education_witness :
  allowed (Filter.check_video (preset_deep_work "d")
    (mkVideo "v" "Calculus lecture" "" [] "Uni" 3600 false "")
    (normalize (mkAIResult (Some "education") (Some 0.9) (Some 0.1) (Some 0.9) (Some 0.0))))
  = true
  /\ category (normalize (mkAIResult (Some "education") (Some 0.9) (Some 0.1) (Some 0.9)
                            (Some 0.0))) = "EDUCATION".
Proof.
  assert (H : allowed (Filter.check_video (preset_deep_work "d")
    (mkVideo "v" "Calculus lecture" "" [] "Uni" 3600 false "")
    (normalize (mkAIResult (Some "education") (Some 0.9) (Some 0.1) (Some 0.9) (Some 0.0))))
    = true) by (vm_compute; reflexivity).
  split; [exact H | exact (deep_work_ai_only_education _ _ _ H)].
Defined.

End AIFacts.

(* ------------------------------------------------------------------ *)
(** ** The classification cache *)

Module CacheFacts.
Import Focus Caching.

Definition keys (db : DB) : list string := map ce_video_id db.

Lemma rows_of_In (vid : string) (db : DB) (e : CacheEntry) :
  In e (rows_of vid db) <-> In e db /\ ce_video_id e = vid.
Proof.
  unfold rows_of; rewrite filter_In, String.eqb_eq; tauto.
Qed.

Lemma rows_of_nodup (vid : string) (db : DB) :
  NoDup (keys db) -> rows_of vid db = [] \/ exists e, rows_of vid db = [e].
Proof.
  unfold keys, rows_of; induction db as [| x db IH]; intros Hn; [now left |].
  inversion Hn as [| ? ? Hx Hn']; subst; simpl.
  destruct (String.eqb (ce_video_id x) vid) eqn:E.
  - right; exists x; f_equal.
    apply String.eqb_eq in E.
    destruct (filter (fun e => String.eqb (ce_video_id e) vid) db) as [| y r] eqn:Ef;
      [reflexivity |].
    exfalso; apply Hx.
    assert (Hy : In y (filter (fun e => String.eqb (ce_video_id e) vid) db))
      by (rewrite Ef; left; reflexivity).
    apply filter_In in Hy as [Hy Ey]; apply String.eqb_eq in Ey.
    rewrite E, <- Ey; apply in_map; exact Hy.
  - apply IH; exact Hn'.
Qed.

Lemma rows_of_none_keys (vid : string) (db : DB) :
  rows_of vid db = [] -> ~ In vid (keys db).
Proof.
  intros H Hin; unfold keys in Hin; apply in_map_iff in Hin as (e & He & Hin).
  assert (Hr : In e (rows_of vid db)) by (apply rows_of_In; auto).
  rewrite H in Hr; destruct Hr.
Qed.

Lemma keys_update (vid : string) (f : CacheEntry -> CacheEntry) (db : DB) :
  (forall e, ce_video_id (f e) = ce_video_id e) ->
  keys (map (fun e => if String.eqb (ce_video_id e) vid then f e else e) db) = keys db.
Proof.
  intros Hf; unfold keys; rewrite map_map; apply map_ext; intros e.
  destruct (String.eqb (ce_video_id e) vid); [apply Hf | reflexivity].
Qed.

Lemma rows_of_update (vid vid' : string) (f : CacheEntry -> CacheEntry) (db : DB) :
  (forall e, ce_video_id (f e) = ce_video_id e) ->
  rows_of vid' (map (fun e => if String.eqb (ce_video_id e) vid then f e else e) db)
  = map (fun e => if String.eqb (ce_video_id e) vid then f e else e) (rows_of vid' db).
Proof.
  intros Hf; unfold rows_of; induction db as [| x db IH]; [reflexivity |].
  cbn [map filter]; destruct (String.eqb (ce_video_id x) vid) eqn:E.
  - rewrite Hf; destruct (String.eqb (ce_video_id x) vid') eqn:E'; cbn [map];
      rewrite ?E, IH; reflexivity.
  - destruct (String.eqb (ce_video_id x) vid') eqn:E'; cbn [map]; rewrite ?E, IH; reflexivity.
Qed.

Lemma rows_of_app (vid : string) (db db' : DB) :
  (rows_of vid (db ++ db') = rows_of vid db ++ rows_of vid db')%list.
Proof. apply filter_app. Qed.

(** What [_cache_result] leaves: one row for the video, holding the
    classification and expiring 24 hours later; the other videos' rows as
    they were. *)
Lemma cache_result_spec (now : Z) (video : Video) (c : VideoClassification) (db : DB) :
  NoDup (keys db) ->
  exists db', _cache_result now video c db = Ok db' /\ NoDup (keys db')
    /\ rows_of (v_id video) db'
       = [mkEntry (v_id video) (category c) (confidence_score c) (entertainment_score c)
                  (depth_score c) (clickbait_score c) (now + 86400)%Z]
    /\ (forall vid, vid <> v_id video -> rows_of vid db' = rows_of vid db).
Proof.
  intros Hn; unfold _cache_result.
  destruct (rows_of_nodup (v_id video) db Hn) as [H0 | [e He]];
    [rewrite H0 | rewrite He]; cbn [scalar_one_or_none].
  - eexists; split; [reflexivity |]; split; [| split].
    + unfold keys; rewrite map_app; cbn [map].
      apply NoDup_app; [exact Hn | constructor; [intros [] | constructor] |].
      intros x Hx Hx2; destruct Hx2 as [<- | []]; exact (rows_of_none_keys _ _ H0 Hx).
    + rewrite rows_of_app, H0; unfold rows_of; cbn [filter ce_video_id].
      rewrite String.eqb_refl; reflexivity.
    + intros vid Hvid; rewrite rows_of_app; unfold rows_of at 2; cbn [filter ce_video_id].
      destruct (String.eqb (v_id video) vid) eqn:E.
      * apply String.eqb_eq in E; congruence.
      * apply app_nil_r.
  - eexists; split; [reflexivity |]; split; [| split].
    + rewrite keys_update by reflexivity; exact Hn.
    + rewrite rows_of_update by reflexivity; rewrite He; cbn [map].
      assert (Hi : In e (rows_of (v_id video) db)) by (rewrite He; left; reflexivity).
      apply rows_of_In in Hi as [_ Hi]; rewrite Hi, String.eqb_refl; unfold write_entry; rewrite Hi; reflexivity.
    + intros vid Hvid; rewrite rows_of_update by reflexivity.
      transitivity (map (fun x => x) (rows_of vid db)); [| apply map_id].
      apply map_ext_in; intros x Hx; apply rows_of_In in Hx as [_ Hx].
      destruct (String.eqb (ce_video_id x) (v_id video)) eqn:E; [| reflexivity].
      apply String.eqb_eq in E; congruence.
Qed.

Lemma of_entry_write (vid : string) (c : VideoClassification) (t : Z) :
  of_entry (mkEntry vid (category c) (confidence_score c) (entertainment_score c)
              (depth_score c) (clickbait_score c) t) = c.
Proof. destruct c; reflexivity. Qed.

(** A freshly computed classification is served from the cache for the next
    24 hours: after a call that computed it (forced, or with no valid entry
    for the video), every call within 24 hours returns the same value and
    leaves the cache as it is.  The content cache's primary key makes the
    video ids unique. *)
Theorem classify_video_cache_roundtrip (now t : Z) (video : Video) (db db' : DB)
    (force_refresh : bool) (c : VideoClassification) :
  NoDup (keys db) ->
  force_refresh = true \/ _get_cached now (v_id video) db = Ok None ->
  classify_video now video db force_refresh = (Ok c, db') ->
  (now <= t <= now + 86400)%Z ->
  c = Classifier._fallback_classification video
  /\ classify_video t video db' false = (Ok c, db').
Proof.
  intros Hn Hmiss Hc Ht.
  assert (Hcached : (if force_refresh then Ok None else _get_cached now (v_id video) db)
                    = Ok None) by (destruct Hmiss as [-> | H]; [reflexivity | rewrite H; destruct force_refresh; auto]).
  unfold classify_video in Hc; rewrite Hcached in Hc.
  destruct (cache_result_spec now video (Classifier._fallback_classification video) db Hn)
    as (db1 & Hr & _ & Hrows & _).
  rewrite Hr in Hc; injection Hc as <- <-; split; [reflexivity |].
  unfold classify_video, _get_cached; rewrite Hrows; cbn [scalar_one_or_none].
  unfold is_expired; cbn [ce_expires_at].
  replace (now + 86400 <? t)%Z with false by (symmetry; apply Z.ltb_ge; lia).
  cbn [negb]; rewrite of_entry_write; reflexivity.
Qed.

(** Under unique video ids a call never fails, keeps the ids unique, touches
    no other video's row, and returns either the heuristic classification
    or an unexpired cached entry of this video (then the cache is
    unchanged). *)
Theorem classify_video_sound (now : Z) (video : Video) (db : DB) (force_refresh : bool) :
  NoDup (keys db) ->
  exists c db', classify_video now video db force_refresh = (Ok c, db')
    /\ NoDup (keys db')
    /\ (forall vid, vid <> v_id video -> rows_of vid db' = rows_of vid db)
    /\ (c = Classifier._fallback_classification video
        \/ exists e, In e db /\ ce_video_id e = v_id video /\ (now <= ce_expires_at e)%Z
                     /\ c = of_entry e /\ db' = db).
Proof.
  intros Hn; unfold classify_video.
  assert (Hfresh : exists c db',
    match _cache_result now video (Classifier._fallback_classification video) db with
    | Err e => (Err e, db)
    | Ok db' => (Ok (Classifier._fallback_classification video), db')
    end = (Ok c, db') /\ NoDup (keys db')
    /\ (forall vid, vid <> v_id video -> rows_of vid db' = rows_of vid db)
    /\ (c = Classifier._fallback_classification video
        \/ exists e, In e db /\ ce_video_id e = v_id video /\ (now <= ce_expires_at e)%Z
                     /\ c = of_entry e /\ db' = db)).
  { destruct (cache_result_spec now video (Classifier._fallback_classification video) db Hn)
      as (db1 & Hr & Hn1 & _ & Hoth).
    rewrite Hr; do 2 eexists; split; [reflexivity |]; auto. }
  destruct force_refresh; [exact Hfresh |].
  unfold _get_cached.
  destruct (rows_of_nodup (v_id video) db Hn) as [H0 | [e He]];
    [rewrite H0; exact Hfresh | rewrite He; cbn [scalar_one_or_none]].
  destruct (is_expired now e) eqn:Ex; cbn [negb]; [exact Hfresh |].
  do 2 eexists; split; [reflexivity |]; split; [exact Hn |]; split; [reflexivity |].
  right; exists e.
  assert (Hi : In e (rows_of (v_id video) db)) by (rewrite He; left; reflexivity).
  apply rows_of_In in Hi as [Hi1 Hi2].
  unfold is_expired in Ex; apply Z.ltb_ge in Ex; auto.
Qed.

Definition sample_video : Video :=
  mkVideo "v1" "Linear Algebra Lecture 1" "Vectors and matrices" [] "MIT OpenCourseWare"
    3000 false "".

Lemma classify_video_cache_roundtrip_witness :
  Classifier._fallback_classification sample_video
    = Classifier._fallback_classification sample_video
  /\ classify_video 3600 sample_video (snd (classify_video 0 sample_video [] true)) false
     = (Ok (Classifier._fallback_classification sample_video),
        snd (classify_video 0 sample_video [] true)).
Proof.
  apply (classify_video_cache_roundtrip 0 3600 sample_video []
           (snd (classify_video 0 sample_video [] true)) true
           (Classifier._fallback_classification sample_video)).
  - constructor.
  - left; reflexivity.
  - vm_compute; reflexivity.
  - lia.
Defined.

Lemma classify_video_sound_witness :
  exists c db', classify_video 0 sample_video [] false = (Ok c, db')
    /\ NoDup (keys db')
    /\ (forall vid, vid <> v_id sample_video -> rows_of vid db' = rows_of vid [])
    /\ (c = Classifier._fallback_classification sample_video
        \/ exists e, In e [] /\ ce_video_id e = v_id sample_video
                     /\ (0 <= ce_expires_at e)%Z /\ c = of_entry e /\ db' = []).
Proof. apply classify_video_sound; constructor. Defined.

End CacheFacts.

(* ------------------------------------------------------------------ *)
Module FeedFacts.
Import Py Focus Filter Caching Feed FeedSpec.

Lemma subseq_nil_l {A} (l : list A) : subseq [] l.
Proof. induction l; constructor; assumption. Qed.

Lemma classify_video_ok (now : Z) (video : Video) (db : DB) (force_refresh : bool) :
  NoDup (CacheFacts.keys db) ->
  exists c db', classify_video now video db force_refresh = (Ok c, db')
    /\ NoDup (CacheFacts.keys db').
Proof.
  intros Hn; unfold classify_video.
  assert (Hfresh : exists c db',
    match _cache_result now video (Classifier._fallback_classification video) db with
    | Err e => (Err e, db)
    | Ok db' => (Ok (Classifier._fallback_classification video), db')
    end = (Ok c, db') /\ NoDup (CacheFacts.keys db')).
  { destruct (CacheFacts.cache_result_spec now video (Classifier._fallback_classification video) db Hn)
      as (db1 & Hr & Hn1 & _).
    rewrite Hr; eauto. }
  destruct force_refresh; [exact Hfresh |].
  unfold _get_cached.
  destruct (CacheFacts.rows_of_nodup (v_id video) db Hn) as [H0 | [e He]];
    [rewrite H0; exact Hfresh | rewrite He; cbn [scalar_one_or_none]].
  destruct (is_expired now e); cbn [negb]; [exact Hfresh | eauto].
Qed.

Lemma feed_items_gen (now : Z) (mode : FocusMode) (max_results : Z) (videos : list Video) :
  forall db items filtered_count,
  NoDup (CacheFacts.keys db) ->
  (Z.of_nat (length items) < max_results)%Z ->
  (forall v c, In (v, c) items -> allowed (check_video mode v c) = true) ->
  exists res fc db', feed_items now mode max_results videos db items filtered_count
                     = (Ok (res, fc), db')
   /\ NoDup (CacheFacts.keys db')
   /\ (forall v c, In (v, c) res -> allowed (check_video mode v c) = true)
   /\ (exists kept, subseq kept videos /\ map fst res = (map fst items ++ kept)%list)
   /\ (Z.of_nat (length res) <= max_results)%Z
   /\ (filtered_count <= fc)%Z
   /\ (Z.of_nat (length res) + fc
       <= Z.of_nat (length items) + filtered_count + Z.of_nat (length videos))%Z
   /\ ((Z.of_nat (length res) < max_results)%Z ->
       (Z.of_nat (length res) + fc
        = Z.of_nat (length items) + filtered_count + Z.of_nat (length videos))%Z).
Proof.
  induction videos as [| video rest IH]; intros db items fc Hn Hlen Hall.
  - exists items, fc, db; cbn [feed_items length].
    split; [reflexivity |]; split; [exact Hn |]; split; [exact Hall |].
    split; [exists []; split; [constructor | symmetry; apply app_nil_r] |]. lia.
  - destruct (classify_video_ok now video db false Hn) as (c & db1 & Hc & Hn1).
    cbn [feed_items]; rewrite Hc.
    assert (Hl' : length (items ++ [(video, c)])%list = S (length items))
      by (rewrite length_app; cbn [length]; lia).
    destruct (allowed (check_video mode video c)) eqn:Ha.
    + assert (Hall' : forall v c', In (v, c') (items ++ [(video, c)])%list ->
                                   allowed (check_video mode v c') = true).
      { intros v c' Hi; apply in_app_or in Hi as [Hi | [Hi | []]];
          [exact (Hall _ _ Hi) | injection Hi as <- <-; exact Ha]. }
      destruct (max_results <=? Z.of_nat (length (items ++ [(video, c)])%list))%Z eqn:Hm.
      * apply Z.leb_le in Hm.
        exists (items ++ [(video, c)])%list, fc, db1.
        split; [reflexivity |]; split; [exact Hn1 |]; split; [exact Hall' |].
        split; [exists [video]; split;
                [apply subseq_keep, subseq_nil_l | rewrite map_app; reflexivity] |].
        cbn [length]; rewrite Hl' in *; lia.
      * apply Z.leb_gt in Hm.
        destruct (IH db1 (items ++ [(video, c)])%list fc Hn1 Hm Hall')
          as (res & fc' & db' & Hr & Hn' & Hres & (kept & Hsub & Hmap) & H1 & H2 & H3 & H4).
        exists res, fc', db'.
        split; [exact Hr |]; split; [exact Hn' |]; split; [exact Hres |].
        split; [exists (video :: kept); split;
                [apply subseq_keep, Hsub | rewrite Hmap, map_app, <- app_assoc; reflexivity] |].
        cbn [length]; rewrite Hl' in *; lia.
    + destruct (IH db1 items (fc + 1)%Z Hn1 Hlen Hall)
        as (res & fc' & db' & Hr & Hn' & Hres & (kept & Hsub & Hmap) & H1 & H2 & H3 & H4).
      exists res, fc', db'.
      split; [exact Hr |]; split; [exact Hn' |]; split; [exact Hres |].
      split; [exists kept; split; [apply subseq_drop, Hsub | exact Hmap] |].
      cbn [length]; lia.
Qed.

(** The YouTube-branch loop of [get_feed] and [search_feed], with
    [max_results >= 1] as the query parameter enforces and unique cache
    keys: it never fails; every kept item passes [check_video] with its
    classification; the kept videos are a subsequence of the input; at
    most [max_results] are kept; kept plus filtered never exceed the input,
    and equal it when the loop did not stop at [max_results]. *)
Theorem feed_items_spec (now : Z) (mode : FocusMode) (max_results : Z)
    (videos : list Video) (db : DB) :
  NoDup (CacheFacts.keys db) ->
  (1 <= max_results)%Z ->
  exists items filtered_count db',
    feed_items now mode max_results videos db [] 0 = (Ok (items, filtered_count), db')
    /\ NoDup (CacheFacts.keys db')
    /\ (forall v c, In (v, c) items -> allowed (check_video mode v c) = true)
    /\ subseq (map fst items) videos
    /\ (Z.of_nat (length items) <= max_results)%Z
    /\ (0 <= filtered_count)%Z
    /\ (Z.of_nat (length items) + filtered_count <= Z.of_nat (length videos))%Z
    /\ ((Z.of_nat (length items) < max_results)%Z ->
        (Z.of_nat (length items) + filtered_count = Z.of_nat (length videos))%Z).
Proof.
  intros Hn Hm.
  destruct (feed_items_gen now mode max_results videos db [] 0 Hn) as
    (res & fc & db' & Hr & Hn' & Hres & (kept & Hsub & Hmap) & H1 & H2 & H3 & H4);
    [cbn [length]; lia | intros v c [] |].
  exists res, fc, db'; cbn [length map app] in *.
  split; [exact Hr |]; split; [exact Hn' |]; split; [exact Hres |].
  split; [rewrite Hmap; exact Hsub |]. lia.
Qed.

Lemma firstn_sub_S {A} (k : nat) (x : A) (l : list A) :
  (0 < k)%nat -> firstn k (x :: l) = x :: firstn (k - 1) l.
Proof. destruct k; [lia |]; intros _; cbn; rewrite Nat.sub_0_r; reflexivity. Qed.

Lemma demo_items_gen (mode : FocusMode) (max_results : Z) (videos : list DemoVideo) :
  forall items filtered_count,
  (Z.of_nat (length items) < max_results)%Z ->
  let r := demo_items mode max_results videos items filtered_count in
  fst r = (items ++ firstn (Z.to_nat max_results - length items)
                            (filter (passes_quick_check mode) videos))%list
  /\ ((Z.of_nat (length (fst r)) < max_results)%Z ->
      (Z.of_nat (length (fst r)) + snd r
       = Z.of_nat (length items) + filtered_count + Z.of_nat (length videos))%Z).
Proof.
  induction videos as [| v rest IH]; intros items fc Hlen; cbn zeta.
  - cbn [demo_items fst snd filter length]; rewrite firstn_nil, app_nil_r.
    split; [reflexivity | lia].
  - unfold passes_quick_check at 1; cbn [demo_items filter].
    destruct (nonempty (allowed_categories mode)
              && negb (mem match d_category v with Some c => c | None => "ENTERTAINMENT" end
                             (allowed_categories mode)))%bool eqn:C1;
    [cbn [negb andb]; destruct (IH items (fc + 1)%Z Hlen) as [E1 E2];
     split; [exact E1 | cbn [length]; intros Hl; specialize (E2 Hl); lia] |].
    destruct (nonempty (blocked_categories mode)
              && mem match d_category v with Some c => c | None => "ENTERTAINMENT" end
                   (blocked_categories mode))%bool eqn:C2;
    [cbn [negb andb]; destruct (IH items (fc + 1)%Z Hlen) as [E1 E2];
     split; [exact E1 | cbn [length]; intros Hl; specialize (E2 Hl); lia] |].
    destruct (d_duration_seconds v <? min_duration_seconds mode)%Z eqn:C3;
    [cbn [negb andb]; destruct (IH items (fc + 1)%Z Hlen) as [E1 E2];
     split; [exact E1 | cbn [length]; intros Hl; specialize (E2 Hl); lia] |].
    destruct (block_shorts mode && d_is_short v)%bool eqn:C4;
    [cbn [negb andb]; destruct (IH items (fc + 1)%Z Hlen) as [E1 E2];
     split; [exact E1 | cbn [length]; intros Hl; specialize (E2 Hl); lia] |].
    cbn [negb andb].
    assert (Hl' : length (items ++ [v])%list = S (length items))
      by (rewrite length_app; cbn [length]; lia).
    rewrite firstn_sub_S by lia.
    destruct (max_results <=? Z.of_nat (length (items ++ [v])%list))%Z eqn:Hm.
    + apply Z.leb_le in Hm; rewrite Hl' in Hm.
      replace (Z.to_nat max_results - length items - 1)%nat with 0%nat by lia.
      cbn [fst firstn]; split; [reflexivity |].
      rewrite Hl'; lia.
    + apply Z.leb_gt in Hm.
      destruct (IH (items ++ [v])%list fc Hm) as [E1 E2].
      rewrite Hl' in E1, E2, Hm.
      replace (Z.to_nat max_results - length items - 1)%nat
        with (Z.to_nat max_results - S (length items))%nat by lia.
      split; [rewrite E1, <- app_assoc; reflexivity |].
      cbn [length]; intros Hl; specialize (E2 Hl); lia.
Qed.

(** The demo-data loop of [get_feed] keeps exactly the first
    [max_results] videos that pass its four checks, in order; when it keeps
    fewer, every input video was either kept or counted as filtered. *)
Theorem demo_items_spec (mode : FocusMode) (max_results : Z) (videos : list DemoVideo) :
  (1 <= max_results)%Z ->
  let r := demo_items mode max_results videos [] 0 in
  fst r = firstn (Z.to_nat max_results) (filter (passes_quick_check mode) videos)
  /\ ((Z.of_nat (length (fst r)) < max_results)%Z ->
      (Z.of_nat (length (fst r)) + snd r = Z.of_nat (length videos))%Z).
Proof.
  intros Hm; destruct (demo_items_gen mode max_results videos [] 0) as [E1 E2];
    [cbn [length]; lia |].
  cbn zeta; split; [rewrite E1; cbn [app length]; rewrite Nat.sub_0_r; reflexivity |].
  intros Hl; specialize (E2 Hl); cbn [length] in E2; lia.
Qed.

Definition sample_demo : list DemoVideo :=
  [mkDemo "a" (Some "EDUCATION") 1200 false; mkDemo "b" (Some "GAMING") 1200 false;
   mkDemo "c" None 1200 false; mkDemo "d" (Some "EDUCATION") 30 true;
   mkDemo "e" (Some "EDUCATION") 900 false; mkDemo "f" (Some "SCIENCE_TECH") 2000 false].

Lemma demo_items_spec_witness :
  (1 <= 2)%Z /\
  let r := demo_items (preset_deep_work "d") 2 sample_demo [] 0 in
  fst r = firstn (Z.to_nat 2) (filter (passes_quick_check (preset_deep_work "d")) sample_demo)
  /\ ((Z.of_nat (length (fst r)) < 2)%Z ->
      (Z.of_nat (length (fst r)) + snd r = Z.of_nat (length sample_demo))%Z).
Proof. split; [lia | apply demo_items_spec; lia]. Defined.

Lemma feed_items_spec_witness :
  NoDup (CacheFacts.keys []) /\ (1 <= 5)%Z /\
  exists items filtered_count db',
    feed_items 0 (preset_deep_work "d") 5 [CacheFacts.sample_video] [] [] 0
      = (Ok (items, filtered_count), db')
    /\ NoDup (CacheFacts.keys db')
    /\ (forall v c, In (v, c) items -> allowed (check_video (preset_deep_work "d") v c) = true)
    /\ subseq (map fst items) [CacheFacts.sample_video]
    /\ (Z.of_nat (length items) <= 5)%Z
    /\ (0 <= filtered_count)%Z
    /\ (Z.of_nat (length items) + filtered_count
        <= Z.of_nat (length [CacheFacts.sample_video]))%Z
    /\ ((Z.of_nat (length items) < 5)%Z ->
        (Z.of_nat (length items) + filtered_count
         = Z.of_nat (length [CacheFacts.sample_video]))%Z).
Proof.
  split; [constructor |]; split; [lia |].
  apply feed_items_spec; [constructor | lia].
Defined.

End FeedFacts.

(* ------------------------------------------------------------------ *)
Module SessionFacts.
Import Focus Session.

Lemma single_true {A} (p : A -> bool) (l : list A) (x : A) :
  (length (filter p l) <= 1)%nat -> In x l -> p x = true -> filter p l = [x].
Proof.
  intros Hlen Hx Hp.
  assert (Hin : In x (filter p l)) by (apply filter_In; auto).
  destruct (filter p l) as [|y [|z r]]; cbn [length In] in *; [contradiction | | lia].
  destruct Hin as [<- | []]; reflexivity.
Qed.

Lemma lock_session_ok (now : Z) (mode_id : string) (d : Z) (s s' : Store) (m : FocusMode) :
  lock_session now mode_id d s = (Ok m, s') ->
  exists m0, filter (fun x => String.eqb (fm_id x) mode_id) s = [m0]
    /\ is_active m0 = true
    /\ m = set_lock true (Some (now + 60 * d)%Z) m0
    /\ s' = update_id mode_id (set_lock true (Some (now + 60 * d)%Z)) s.
Proof.
  unfold lock_session.
  destruct (filter (fun x => String.eqb (fm_id x) mode_id) s) as [|m0 [|m1 r]];
    cbn [scalar_one_or_none]; try discriminate.
  destruct (is_active m0) eqn:Ea; cbn [negb]; [| discriminate].
  intros H; injection H as <- <-; exists m0; auto.
Qed.

Lemma unlock_session_ok (mode_id : string) (s s' : Store) (m : FocusMode) :
  unlock_session mode_id s = (Ok m, s') ->
  exists m0, filter (fun x => String.eqb (fm_id x) mode_id) s = [m0]
    /\ m = clear_lock m0 /\ s' = update_id mode_id clear_lock s.
Proof.
  unfold unlock_session.
  destruct (filter (fun x => String.eqb (fm_id x) mode_id) s) as [|m0 [|m1 r]];
    cbn [scalar_one_or_none]; try discriminate.
  intros H; injection H as <- <-; exists m0; auto.
Qed.

Lemma filter_id_In (mode_id : string) (s : Store) (m0 : FocusMode) :
  filter (fun x => String.eqb (fm_id x) mode_id) s = [m0] -> In m0 s /\ fm_id m0 = mode_id.
Proof.
  intros Ef.
  assert (Hm0 : In m0 (filter (fun x => String.eqb (fm_id x) mode_id) s))
    by (rewrite Ef; left; reflexivity).
  apply filter_In in Hm0 as [Hin Hid]; apply String.eqb_eq in Hid; auto.
Qed.

(** After a successful lock, the locked mode is the only locked and the only
    active mode of the store. *)
Lemma lock_session_locked (now : Z) (mode_id : string) (d : Z) (s s' : Store) (m : FocusMode) :
  supervisor_inv s -> lock_session now mode_id d s = (Ok m, s') ->
  filter is_locked s' = [m] /\ filter is_active s' = [m]
  /\ is_locked m = true /\ lock_until m = Some (now + 60 * d)%Z.
Proof.
  intros [Hla Hact] H.
  destruct (lock_session_ok now mode_id d s s' m H) as (m0 & Ef & Ea & -> & ->).
  destruct (filter_id_In mode_id s m0 Ef) as [Hin Hid].
  assert (HA : filter is_active s = [m0]) by (apply single_true; auto).
  assert (Hfm : In (set_lock true (Some (now + 60 * d)%Z) m0)
                  (update_id mode_id (set_lock true (Some (now + 60 * d)%Z)) s)).
  { unfold update_id; apply in_map_iff; exists m0; rewrite Hid, String.eqb_refl; auto. }
  split; [| split; [| split; reflexivity]].
  - apply single_true; [| exact Hfm | reflexivity].
    eapply Nat.le_trans;
      [apply (FocusFacts.filter_length_mono is_locked (fun y => String.eqb (fm_id y) mode_id)) |].
    + intros y Hy; unfold update_id in Hy; apply in_map_iff in Hy as (x & <- & Hx).
      destruct (String.eqb (fm_id x) mode_id) eqn:E; intros Hl; [exact E |].
      exfalso.
      assert (Hxa : In x (filter is_active s)) by (apply filter_In; split; [exact Hx | exact (Hla x Hx Hl)]).
      rewrite HA in Hxa; destruct Hxa as [<- | []].
      rewrite Hid, String.eqb_refl in E; discriminate E.
    + unfold update_id; rewrite FocusFacts.filter_map_length; [rewrite Ef; cbn [length]; lia |].
      intros x; cbv beta; destruct (String.eqb (fm_id x) mode_id) eqn:E; exact E.
  - apply single_true; [| exact Hfm | exact Ea].
    unfold update_id; rewrite FocusFacts.filter_map_length; [exact Hact |].
    intros x; cbv beta; destruct (String.eqb (fm_id x) mode_id); reflexivity.
Qed.

Lemma activate_first_found (mode_id : string) (l : Store) (x : FocusMode) :
  In x l -> fm_id x = mode_id -> exists l' t, activate_first mode_id l = (l', Some t).
Proof.
  induction l as [|y l IH]; intros Hx Hid; [destruct Hx |].
  cbn [activate_first]; destruct (String.eqb (fm_id y) mode_id) eqn:E; [eauto |].
  destruct Hx as [<- | Hx]; [rewrite Hid, String.eqb_refl in E; discriminate E |].
  destruct (IH Hx Hid) as (l' & t & ->); do 2 eexists; reflexivity.
Qed.

Lemma clear_all_idem (s : Store) :
  map (fun m => clear_lock (set_active false m))
      (map (fun x => if is_locked x then clear_lock x else x) s)
  = map (fun m => clear_lock (set_active false m)) s.
Proof. rewrite map_map; apply map_ext; intros x; destruct (is_locked x); reflexivity. Qed.

Lemma filter_id_nodup (mode_id : string) (l : Store) :
  NoDup (map fm_id l) ->
  filter (fun m => String.eqb (fm_id m) mode_id) l = []
  \/ exists x, filter (fun m => String.eqb (fm_id m) mode_id) l = [x].
Proof.
  induction l as [| x l IH]; intros Hn; [now left |].
  inversion Hn as [| ? ? Hx Hn']; subst; cbn [filter].
  destruct (String.eqb (fm_id x) mode_id) eqn:E.
  - right; exists x; f_equal.
    apply FocusFacts.filter_all_false; intros y Hy.
    destruct (String.eqb (fm_id y) mode_id) eqn:Ey; [| reflexivity].
    exfalso; apply Hx; apply String.eqb_eq in E, Ey; rewrite E, <- Ey; apply in_map; exact Hy.
  - apply IH; exact Hn'.
Qed.

Lemma filter_id_none (mode_id : string) (l : Store) :
  filter (fun m => String.eqb (fm_id m) mode_id) l = [] -> forall m, In m l -> fm_id m <> mode_id.
Proof.
  intros Ef m Hm Hid.
  assert (Hin : In m (filter (fun m => String.eqb (fm_id m) mode_id) l))
    by (apply filter_In; split; [exact Hm | apply String.eqb_eq; exact Hid]).
  rewrite Ef in Hin; destruct Hin.
Qed.

Lemma activate_first_unique (mode_id : string) (l : Store) (x : FocusMode) :
  NoDup (map fm_id l) ->
  filter (fun m => String.eqb (fm_id m) mode_id) l = [x] ->
  activate_first mode_id l = (update_id mode_id (set_active true) l, Some (set_active true x)).
Proof.
  induction l as [|y l IH]; intros Hn Hf; [discriminate Hf |].
  inversion Hn as [| ? ? Hy Hn']; subst.
  cbn [activate_first filter] in *; unfold update_id; cbn [map].
  destruct (String.eqb (fm_id y) mode_id) eqn:E.
  - injection Hf as <- Hrest; cbv zeta; f_equal; f_equal.
    symmetry; transitivity (map (fun m => m) l); [| apply map_id].
    apply map_ext_in; intros z Hz.
    destruct (String.eqb (fm_id z) mode_id) eqn:Ez; [| reflexivity].
    exfalso; assert (Hin : In z (filter (fun m => String.eqb (fm_id m) mode_id) l))
      by (apply filter_In; auto).
    rewrite Hrest in Hin; destruct Hin.
  - rewrite (IH Hn' Hf); reflexivity.
Qed.

Lemma map_fm_id_clear (s : Store) :
  map fm_id (map (fun m => clear_lock (set_active false m)) s) = map fm_id s.
Proof. rewrite map_map; apply map_ext; reflexivity. Qed.

(** The session statistics after [lock_session] (for [duration_minutes]
    [d] at time [now]), at any later time [t]: the locked mode is the
    active one, and the lock status shows [(now + 60 d - t) // 60] minutes
    and the unlock time while the lock runs, and nothing once it is over. *)
Theorem lock_then_stats (now t : Z) (mode_id user_id : string) (d : Z)
    (h : list WatchHistory) (s s' : Store) (m : FocusMode) :
  supervisor_inv s -> lock_session now mode_id d s = (Ok m, s') ->
  get_session_stats t user_id h s'
  = Ok (mkStats true (Some m) (Some (check_time_limit t user_id h m))
          (if (t <? now + 60 * d)%Z
           then Some (mkLockStatus ((now + 60 * d - t) / 60) (now + 60 * d))
           else None)).
Proof.
  intros Hinv H; destruct (lock_session_locked now mode_id d s s' m Hinv H) as (_ & HA & Hl & Hu).
  unfold get_session_stats, get_active_mode; rewrite HA; cbn [scalar_one_or_none].
  rewrite Hl, Hu.
  destruct (t <? now + 60 * d)%Z eqn:E.
  - apply Z.ltb_lt in E.
    replace (0 <? now + 60 * d - t)%Z with true by (symmetry; apply Z.ltb_lt; lia).
    reflexivity.
  - apply Z.ltb_ge in E.
    replace (0 <? now + 60 * d - t)%Z with false by (symmetry; apply Z.ltb_ge; lia).
    reflexivity.
Qed.

(** The lock window: after [lock_session] until [now + 60 d], both the
    engine's and the router's [activate_mode] refuse every target with the
    locked mode's name and unlock time, changing nothing; from that time
    on, the engine activates any mode of the store, by its id. *)
Theorem lock_gate_window (now : Z) (mode_id : string) (d : Z) (s s' : Store) (m : FocusMode) :
  supervisor_inv s -> lock_session now mode_id d s = (Ok m, s') ->
  (forall t target_id, (t < now + 60 * d)%Z ->
     activate_mode t target_id s' = (Err (ModeLocked (name m) (now + 60 * d)), s')
     /\ router_activate_mode t target_id s' = (Err (ModeLocked (name m) (now + 60 * d)), s'))
  /\ (forall t x, (now + 60 * d <= t)%Z -> In x s' ->
     exists target s'', activate_mode t (fm_id x) s' = (Ok target, s'')
                        /\ fm_id target = fm_id x).
Proof.
  intros Hinv H; destruct (lock_session_locked now mode_id d s s' m Hinv H) as (HL & _ & Hl & Hu).
  split.
  - intros t target_id Ht; apply Z.ltb_lt in Ht.
    split; [unfold activate_mode, _get_locked_mode | unfold router_activate_mode];
      rewrite HL; cbn [scalar_one_or_none]; rewrite Hu, Ht; cbv beta iota; rewrite ?Hu; reflexivity.
  - intros t x Ht Hx; apply Z.ltb_ge in Ht.
    unfold activate_mode, _get_locked_mode; rewrite HL; cbn [scalar_one_or_none].
    rewrite Hu, Ht.
    pose proof (FocusFacts.activate_first_spec (fm_id x)
                  (map (fun m => clear_lock (set_active false m))
                     (map (fun x => if is_locked x then clear_lock x else x) s'))) as Hspec.
    destruct (activate_first (fm_id x) _) as [l' [tg|]] eqn:Ea.
    + exists tg, l'; split; [reflexivity |].
      destruct Hspec as (_ & _ & Hid); [| exact Hid].
      intros y Hy; apply in_map_iff in Hy as (z & <- & _); repeat split.
    + exfalso.
      assert (Hx' : In (clear_lock (set_active false (if is_locked x then clear_lock x else x)))
                      (map (fun m => clear_lock (set_active false m))
                         (map (fun x => if is_locked x then clear_lock x else x) s')))
        by exact (in_map (fun m => clear_lock (set_active false m)) _ _
                    (in_map (fun x => if is_locked x then clear_lock x else x) s' x Hx)).
      destruct (activate_first_found (fm_id x) _ _ Hx') as (l'' & t' & Ea');
        [destruct (is_locked x); reflexivity |].
      rewrite Ea in Ea'; discriminate Ea'.
Qed.

(** [unlock_session] of the active mode leaves no lock: no later
    activation, by the engine or the router, is refused as locked. *)
Theorem unlock_releases_gate (mode_id : string) (s s' : Store) (m : FocusMode) :
  supervisor_inv s -> unlock_session mode_id s = (Ok m, s') -> is_active m = true ->
  filter is_locked s' = []
  /\ (forall t target_id nm u,
        fst (activate_mode t target_id s') <> Err (ModeLocked nm u)
        /\ fst (router_activate_mode t target_id s') <> Err (ModeLocked nm u)).
Proof.
  intros [Hla Hact] H Ha.
  destruct (unlock_session_ok mode_id s s' m H) as (m0 & Ef & -> & ->).
  destruct (filter_id_In mode_id s m0 Ef) as [Hin Hid].
  assert (HA : filter is_active s = [m0]) by (apply single_true; auto).
  assert (HL : filter is_locked (update_id mode_id clear_lock s) = []).
  { apply FocusFacts.filter_all_false; intros y Hy; unfold update_id in Hy.
    apply in_map_iff in Hy as (x & <- & Hx).
    destruct (String.eqb (fm_id x) mode_id) eqn:E; [reflexivity |].
    destruct (is_locked x) eqn:El; [exfalso | reflexivity].
    assert (Hxa : In x (filter is_active s)) by (apply filter_In; split; [exact Hx | exact (Hla x Hx El)]).
    rewrite HA in Hxa; destruct Hxa as [<- | []].
    rewrite Hid, String.eqb_refl in E; discriminate E. }
  split; [exact HL |]; intros t target_id nm u; split.
  - unfold activate_mode, _get_locked_mode; rewrite HL; cbn [scalar_one_or_none].
    destruct (activate_first target_id _) as [l' [tg|]]; cbn [fst]; discriminate.
  - unfold router_activate_mode; rewrite HL; cbn [scalar_one_or_none].
    destruct (filter (fun m => String.eqb (fm_id m) target_id)
                (map (fun m => clear_lock (set_active false m)) _)) as [|? [|? ?]];
      cbn [scalar_one_or_none fst]; discriminate.
Qed.

Ltac agree_tail mode_id s Hn :=
  let Ef := fresh "Ef" in
  let x := fresh "x" in
  pose proof (eq_trans (map_fm_id_clear s) eq_refl) as _;
  destruct (filter_id_nodup mode_id (map (fun m => clear_lock (set_active false m)) s))
    as [Ef | [x Ef]]; [rewrite map_fm_id_clear; exact Hn | |];
  rewrite Ef; cbn [scalar_one_or_none];
  [ rewrite (surjective_pairing (activate_first mode_id _)),
      (FocusFacts.activate_first_absent mode_id _ (filter_id_none mode_id _ Ef));
    split; [reflexivity | intros ? Hc; discriminate Hc]
  | rewrite (activate_first_unique mode_id _ x) by (rewrite ?map_fm_id_clear; assumption);
    split; reflexivity ].

(** The router's [activate_mode] and the engine's agree when at most one
    mode is locked and the mode ids are unique: the same result, and on
    success the same store. *)
Theorem router_engine_agree (now : Z) (mode_id : string) (s : Store) :
  (length (filter is_locked s) <= 1)%nat -> NoDup (map fm_id s) ->
  fst (router_activate_mode now mode_id s) = fst (activate_mode now mode_id s)
  /\ (forall m, fst (router_activate_mode now mode_id s) = Ok m ->
       snd (router_activate_mode now mode_id s) = snd (activate_mode now mode_id s)).
Proof.
  intros Hlen Hn; unfold router_activate_mode, activate_mode, _get_locked_mode.
  destruct (filter is_locked s) as [|lm [|lm' r]] eqn:HL; cbn [scalar_one_or_none];
    [| | cbn [length] in Hlen; lia].
  - agree_tail mode_id s Hn.
  - destruct (lock_until lm) as [u|] eqn:Hu; [destruct (now <? u)%Z eqn:Hlt |].
    + cbv beta iota zeta; rewrite ?Hu; split; [reflexivity | intros ? Hc; discriminate Hc].
    + rewrite clear_all_idem; agree_tail mode_id s Hn.
    + agree_tail mode_id s Hn.
Qed.

Definition sample_store : Store := [set_active true (preset_study "a"); preset_relax "b"].

Lemma sample_store_inv : supervisor_inv sample_store.
Proof.
  split; [| vm_compute; lia].
  intros m [<- | [<- | []]]; vm_compute; first [reflexivity | discriminate | intros; reflexivity].
Qed.

Definition sample_locked : result FocusMode * Store := lock_session 1000 "a" 25 sample_store.

Definition ok_or (r : result FocusMode) (d : FocusMode) : FocusMode :=
  match r with Ok m => m | Err _ => d end.

Lemma lock_then_stats_witness :
  get_session_stats 1000 "u" [] (snd sample_locked)
  = Ok (mkStats true (Some (ok_or (fst sample_locked) (preset_study "a")))
          (Some (check_time_limit 1000 "u" [] (ok_or (fst sample_locked) (preset_study "a"))))
          (if (1000 <? 1000 + 60 * 25)%Z
           then Some (mkLockStatus ((1000 + 60 * 25 - 1000) / 60) (1000 + 60 * 25))
           else None)).
Proof.
  apply (lock_then_stats 1000 1000 "a" "u" 25 [] sample_store (snd sample_locked)
           (ok_or (fst sample_locked) (preset_study "a")) sample_store_inv).
  vm_compute; reflexivity.
Defined.

Lemma lock_gate_window_witness :
  (forall t target_id, (t < 1000 + 60 * 25)%Z ->
     activate_mode t target_id (snd sample_locked)
     = (Err (ModeLocked (name (ok_or (fst sample_locked) (preset_study "a"))) (1000 + 60 * 25)),
        snd sample_locked)
     /\ router_activate_mode t target_id (snd sample_locked)
     = (Err (ModeLocked (name (ok_or (fst sample_locked) (preset_study "a"))) (1000 + 60 * 25)),
        snd sample_locked))
  /\ (forall t x, (1000 + 60 * 25 <= t)%Z -> In x (snd sample_locked) ->
     exists target s'', activate_mode t (fm_id x) (snd sample_locked) = (Ok target, s'')
                        /\ fm_id target = fm_id x).
Proof.
  apply (lock_gate_window 1000 "a" 25 sample_store (snd sample_locked)
           (ok_or (fst sample_locked) (preset_study "a")) sample_store_inv).
  vm_compute; reflexivity.
Defined.

Definition sample_unlocked : result FocusMode * Store :=
  unlock_session "a" (snd sample_locked).

Lemma sample_locked_inv : supervisor_inv (snd sample_locked).
Proof.
  split; [| vm_compute; lia].
  intros m Hm; vm_compute in Hm.
  destruct Hm as [<- | [<- | []]]; vm_compute; first [reflexivity | discriminate | intros; reflexivity].
Qed.

Lemma unlock_releases_gate_witness :
  filter is_locked (snd sample_unlocked) = []
  /\ (forall t target_id nm u,
        fst (activate_mode t target_id (snd sample_unlocked)) <> Err (ModeLocked nm u)
        /\ fst (router_activate_mode t target_id (snd sample_unlocked)) <> Err (ModeLocked nm u)).
Proof.
  apply (unlock_releases_gate "a" (snd sample_locked) (snd sample_unlocked)
           (ok_or (fst sample_unlocked) (preset_study "a")) sample_locked_inv);
    vm_compute; reflexivity.
Defined.

Lemma router_engine_agree_witness :
  fst (router_activate_mode 5000 "b" (snd sample_locked))
    = fst (activate_mode 5000 "b" (snd sample_locked))
  /\ (forall m, fst (router_activate_mode 5000 "b" (snd sample_locked)) = Ok m ->
       snd (router_activate_mode 5000 "b" (snd sample_locked))
       = snd (activate_mode 5000 "b" (snd sample_locked))).
Proof.
  apply router_engine_agree; vm_compute;
    [lia | constructor; [intros [H | []]; discriminate H | constructor; [intros [] | constructor]]].
Defined.

End SessionFacts.

(* ------------------------------------------------------------------ *)
Module PrefFacts.
Import Py Caching Preferences PrefSpec.

Lemma get0_cons (k k0 : string) (n : Z) (d : list (string * Z)) :
  dict_get0 k ((k0, n) :: d) = if String.eqb k0 k then n else dict_get0 k d.
Proof. unfold dict_get0; cbn [find fst]; destruct (String.eqb k0 k); reflexivity. Qed.

Lemma get0_incr (k k' : string) (d : list (string * Z)) :
  dict_get0 k' (incr k d) = (dict_get0 k' d + if String.eqb k k' then 1 else 0)%Z.
Proof.
  induction d as [| [k0 n] d IH]; cbn [incr].
  - rewrite get0_cons; unfold dict_get0 at 2; cbn [find].
    destruct (String.eqb k k'); reflexivity.
  - destruct (String.eqb k k0) eqn:E.
    + apply String.eqb_eq in E; subst k0; rewrite !get0_cons.
      destruct (String.eqb k k'); lia.
    + rewrite !get0_cons; destruct (String.eqb k0 k') eqn:E'; [| exact IH].
      apply String.eqb_eq in E'; subst k0; rewrite E; lia.
Qed.

Lemma keys_incr (k k' : string) (d : list (string * Z)) :
  In k' (map fst (incr k d)) <-> k' = k \/ In k' (map fst d).
Proof.
  induction d as [| [k0 n] d IH]; cbn [incr map fst In].
  - intuition.
  - destruct (String.eqb k k0) eqn:E; cbn [map fst In].
    + apply String.eqb_eq in E; subst k0; intuition.
    + rewrite IH; intuition.
Qed.

Lemma nodup_incr (k : string) (d : list (string * Z)) :
  NoDup (map fst d) -> NoDup (map fst (incr k d)).
Proof.
  induction d as [| [k0 n] d IH]; cbn [incr map fst]; intros Hn.
  - constructor; [intros [] | constructor].
  - inversion Hn as [| ? ? Hk0 Hn']; subst.
    destruct (String.eqb k k0) eqn:E; cbn [map fst]; [exact Hn |].
    constructor; [| exact (IH Hn')].
    rewrite keys_incr; intros [-> | H]; [rewrite String.eqb_refl in E; discriminate E | contradiction].
Qed.

Lemma count_rows_gen (sel : WatchRow -> bool) (rows : list (WatchRow * option CacheEntry)) :
  forall d,
  (forall k, dict_get0 k (fold_left (fun d r => if sel (fst r) then incr (row_category (snd r)) d else d) rows d)
             = dict_get0 k d + rows_with sel k rows)%Z
  /\ (NoDup (map fst d) ->
      NoDup (map fst (fold_left (fun d r => if sel (fst r) then incr (row_category (snd r)) d else d) rows d)))
  /\ (forall k, In k (map fst (fold_left (fun d r => if sel (fst r) then incr (row_category (snd r)) d else d) rows d))
       <-> In k (map fst d) \/ exists r, In r rows /\ sel (fst r) = true /\ row_category (snd r) = k).
Proof.
  unfold rows_with; induction rows as [| r rows IH]; intros d; cbn [fold_left filter length].
  - split; [intros k; lia | split; [auto | intros k; split; [auto | intros [H | (r & [] & _)]; exact H]]].
  - destruct (IH (if sel (fst r) then incr (row_category (snd r)) d else d)) as (H1 & H2 & H3).
    split; [| split].
    + intros k; rewrite H1; destruct (sel (fst r)) eqn:Es; cbn [andb].
      * rewrite get0_incr; destruct (String.eqb (row_category (snd r)) k); cbn [length]; lia.
      * lia.
    + intros Hn; apply H2; destruct (sel (fst r)); [apply nodup_incr |]; exact Hn.
    + intros k; rewrite H3; destruct (sel (fst r)) eqn:Es; [rewrite keys_incr |]; split.
      * intros [[-> | H] | (r' & Hr' & Hs & Hc)];
          [right; exists r; split; [left; reflexivity | auto] | left; exact H |].
        right; exists r'; split; [right; exact Hr' | auto].
      * intros [H | (r' & [<- | Hr'] & Hs & Hc)];
          [left; right; exact H | left; left; symmetry; exact Hc | right; exists r'; auto].
      * intros [H | (r' & Hr' & Hs & Hc)];
          [left; exact H | right; exists r'; split; [right; exact Hr' | auto]].
      * intros [H | (r' & [<- | Hr'] & Hs & Hc)]; [left; exact H | congruence |].
        right; exists r'; auto.
Qed.

(** What [count_rows] builds: distinct categories, each mapped to the
    number of selected rows of that category. *)
Lemma count_rows_facts (sel : WatchRow -> bool) (rows : list (WatchRow * option CacheEntry)) :
  NoDup (map fst (count_rows sel rows))
  /\ (forall k, dict_get0 k (count_rows sel rows) = rows_with sel k rows)
  /\ (forall k, In k (map fst (count_rows sel rows))
        <-> exists r, In r rows /\ sel (fst r) = true /\ row_category (snd r) = k).
Proof.
  destruct (count_rows_gen sel rows []) as (H1 & H2 & H3); unfold count_rows.
  split; [apply H2; constructor |]; split.
  - intros k; rewrite H1; reflexivity.
  - intros k; rewrite H3; cbn [map In]; intuition.
Qed.

Lemma insert_count_perm (x : string * Z) (l : list (string * Z)) :
  Permutation (insert_count x l) (x :: l).
Proof.
  induction l as [| y l IH]; cbn [insert_count]; [reflexivity |].
  destruct (snd y <=? snd x)%Z; [reflexivity |].
  eapply perm_trans; [apply perm_skip, IH | apply perm_swap].
Qed.

Lemma sort_counts_perm (l : list (string * Z)) : Permutation (sort_counts l) l.
Proof.
  induction l as [| x l IH]; cbn [sort_counts]; [reflexivity |].
  eapply perm_trans; [apply insert_count_perm | apply perm_skip, IH].
Qed.

Definition desc (x y : string * Z) : Prop := (snd y <= snd x)%Z.

Lemma insert_count_sorted (x : string * Z) (l : list (string * Z)) :
  Sorted desc l -> Sorted desc (insert_count x l).
Proof.
  induction l as [| y l IH]; cbn [insert_count]; intros Hs; [repeat constructor |].
  destruct (snd y <=? snd x)%Z eqn:E.
  - constructor; [exact Hs | constructor; apply Z.leb_le; exact E].
  - apply Z.leb_gt in E.
    inversion Hs as [| ? ? Hs' Hh]; subst.
    constructor; [exact (IH Hs') |].
    destruct l as [| z l]; cbn [insert_count]; [constructor; unfold desc; lia |].
    destruct (snd z <=? snd x)%Z; constructor; [unfold desc; lia |].
    inversion Hh; assumption.
Qed.

Lemma sort_counts_sorted (l : list (string * Z)) : StronglySorted desc (sort_counts l).
Proof.
  apply Sorted_StronglySorted; [intros a b c H1 H2; unfold desc in *; lia |].
  induction l as [| x l IH]; cbn [sort_counts]; [constructor | apply insert_count_sorted, IH].
Qed.

Lemma in_firstn_l {A} (n : nat) (l : list A) (a : A) : In a (firstn n l) -> In a l.
Proof. intros H; rewrite <- (firstn_skipn n l); apply in_or_app; left; exact H. Qed.

Lemma in_skipn_l {A} (n : nat) (l : list A) (a : A) : In a (skipn n l) -> In a l.
Proof. intros H; rewrite <- (firstn_skipn n l); apply in_or_app; right; exact H. Qed.

Lemma sorted_split (n : nat) (l : list (string * Z)) (a b : string * Z) :
  StronglySorted desc l -> In a (firstn n l) -> In b (skipn n l) -> desc a b.
Proof.
  revert n; induction l as [| x l IH]; intros n Hs Ha Hb;
    destruct n; cbn [firstn skipn In] in Ha, Hb; try contradiction.
  inversion Hs as [| ? ? Hs' Hf]; subst.
  destruct Ha as [<- | Ha].
  - rewrite Forall_forall in Hf; apply Hf; exact (in_skipn_l _ _ _ Hb).
  - exact (IH n Hs' Ha Hb).
Qed.

Lemma get0_In (k : string) (v : Z) (d : list (string * Z)) :
  NoDup (map fst d) -> In (k, v) d -> dict_get0 k d = v.
Proof.
  induction d as [| [k0 n] d IH]; [intros _ [] |]; intros Hn Hin; rewrite get0_cons.
  cbn [map fst] in Hn; inversion Hn as [| ? ? Hk0 Hn']; subst.
  destruct Hin as [E | Hin].
  - injection E as -> ->; rewrite String.eqb_refl; reflexivity.
  - destruct (String.eqb k0 k) eqn:E; [| exact (IH Hn' Hin)].
    apply String.eqb_eq in E; subst k0; exfalso; apply Hk0.
    exact (in_map fst _ _ Hin).
Qed.

(** [top3] of a dict with distinct keys: at most three distinct keys of
    it, none with a smaller value than a key left out, and all keys when
    it has fewer than three. *)
Lemma top3_facts (d : list (string * Z)) :
  NoDup (map fst d) ->
  (length (top3 d) <= 3)%nat /\ NoDup (top3 d) /\ incl (top3 d) (map fst d)
  /\ (forall k k', In k (top3 d) -> In k' (map fst d) -> ~ In k' (top3 d) ->
        (dict_get0 k' d <= dict_get0 k d)%Z)
  /\ ((length (top3 d) < 3)%nat -> incl (map fst d) (top3 d)).
Proof.
  intros Hn; unfold top3.
  pose proof (sort_counts_perm d) as Hp.
  pose proof (sort_counts_sorted d) as Hs.
  assert (Hnd : NoDup (map fst (sort_counts d)))
    by exact (Permutation_NoDup (Permutation_map fst (Permutation_sym Hp)) Hn).
  assert (Hin : forall x, In x (sort_counts d) <-> In x d)
    by (intros x; split; apply Permutation_in; [exact Hp | apply Permutation_sym, Hp]).
  split; [| split; [| split; [| split]]].
  - rewrite length_map; apply firstn_le_length.
  - rewrite <- firstn_map; apply (NoDup_app_remove_r _ (skipn 3 (map fst (sort_counts d)))).
    rewrite firstn_skipn; exact Hnd.
  - intros k Hk; apply in_map_iff in Hk as (x & <- & Hx).
    apply in_map, Hin, (in_firstn_l 3), Hx.
  - intros k k' Hk Hk' Hnot.
    apply in_map_iff in Hk as ([k0 v] & Ek & Hx); cbn [fst] in Ek; subst k0.
    apply in_map_iff in Hk' as ([k1 v'] & Ek' & Hy); cbn [fst] in Ek'; subst k1.
    rewrite (get0_In k v d Hn (proj1 (Hin _) (in_firstn_l _ _ _ Hx))), (get0_In k' v' d Hn Hy).
    apply Hin in Hy; rewrite <- (firstn_skipn 3 (sort_counts d)) in Hy.
    apply in_app_or in Hy as [Hy | Hy].
    + exfalso; apply Hnot; exact (in_map fst _ (k', v') Hy).
    + exact (sorted_split 3 _ _ _ Hs Hx Hy).
  - rewrite length_map, length_firstn; intros Hl.
    rewrite firstn_all2 by lia.
    intros k Hk; apply in_map_iff in Hk as (x & <- & Hx); apply in_map, Hin, Hx.
Qed.

Lemma top3_rows_ranked (sel : WatchRow -> bool) (rows : list (WatchRow * option CacheEntry)) :
  ranked sel rows (top3 (count_rows sel rows)).
Proof.
  destruct (count_rows_facts sel rows) as (Hn & Hget & Hkeys).
  destruct (top3_facts _ Hn) as (H1 & H2 & H3 & H4 & H5).
  split; [exact H1 |]; split; [exact H2 |]; split; [| split].
  - intros k Hk; apply Hkeys, H3, Hk.
  - intros k r Hk Hr Hs Hnot; rewrite <- !Hget; apply (H4 k _ Hk); [apply Hkeys; eauto | exact Hnot].
  - intros Hl r Hr Hs; apply H5; [exact Hl | apply Hkeys; eauto].
Qed.

Lemma add_missing_facts (disliked : list string) :
  forall avoided, NoDup avoided ->
  NoDup (add_missing avoided disliked)
  /\ (exists extra, add_missing avoided disliked = (avoided ++ extra)%list /\ incl extra disliked)
  /\ incl disliked (add_missing avoided disliked).
Proof.
  unfold add_missing; induction disliked as [| c l IH]; intros a Ha; cbn [fold_left].
  - split; [exact Ha |]; split; [exists []; split; [symmetry; apply app_nil_r | intros x []] |].
    intros x [].
  - destruct (mem c a) eqn:Em.
    + destruct (IH a Ha) as (H1 & (extra & He & Hi) & H3).
      split; [exact H1 |]; split; [exists extra; split; [exact He | intros x Hx; right; apply Hi, Hx] |].
      intros x [<- | Hx]; [| apply H3, Hx].
      rewrite He; apply in_or_app; left; apply AIFacts.mem_In, Em.
    + assert (Ha' : NoDup (a ++ [c])%list).
      { apply NoDup_app; [exact Ha | constructor; [intros [] | constructor] |].
        intros x Hx [<- | []]; apply AIFacts.mem_In in Hx; congruence. }
      destruct (IH (a ++ [c])%list Ha') as (H1 & (extra & He & Hi) & H3).
      split; [exact H1 |]; split.
      * exists (c :: extra); split; [rewrite He, <- app_assoc; reflexivity |].
        intros x [<- | Hx]; [left; reflexivity | right; apply Hi, Hx].
      * intros x [<- | Hx]; [| apply H3, Hx].
        rewrite He; apply in_or_app; left; apply in_or_app; right; left; reflexivity.
Qed.

Lemma avoided_facts (rows : list (WatchRow * option CacheEntry)) (disliked : list string) :
  (exists extra, avoided_categories (get_user_preferences rows disliked)
                 = (top3 (skipped_by_category rows) ++ extra)%list /\ incl extra disliked)
  /\ NoDup (avoided_categories (get_user_preferences rows disliked))
  /\ incl disliked (avoided_categories (get_user_preferences rows disliked)).
Proof.
  assert (Hav : avoided_categories (get_user_preferences rows disliked)
                = add_missing (top3 (skipped_by_category rows)) disliked).
  { unfold get_user_preferences; cbn [avoided_categories].
    destruct (Filter.nonempty (skipped_by_category rows)) eqn:Es.
    - destruct disliked; reflexivity.
    - destruct (skipped_by_category rows); [| discriminate Es].
      destruct disliked; reflexivity. }
  destruct (top3_rows_ranked w_was_skipped rows) as (_ & Hnd & _).
  destruct (add_missing_facts disliked _ Hnd) as (H1 & H2 & H3).
  rewrite Hav; auto.
Qed.

(** [get_user_preferences]: the preferred categories are the (at most
    three) most completed ones; the avoided ones are the (at most three)
    most skipped ones, followed by the disliked categories not among them,
    without repetition, and include every disliked category. *)
Theorem get_user_preferences_spec (rows : list (WatchRow * option CacheEntry))
    (disliked : list string) :
  ranked w_completed rows (preferred_categories (get_user_preferences rows disliked))
  /\ ranked w_was_skipped rows (top3 (skipped_by_category rows))
  /\ (exists extra, avoided_categories (get_user_preferences rows disliked)
                    = (top3 (skipped_by_category rows) ++ extra)%list /\ incl extra disliked)
  /\ NoDup (avoided_categories (get_user_preferences rows disliked))
  /\ incl disliked (avoided_categories (get_user_preferences rows disliked)).
Proof.
  assert (Hpref : preferred_categories (get_user_preferences rows disliked)
                  = top3 (completed_by_category rows)).
  { unfold get_user_preferences; cbn [preferred_categories].
    destruct (Filter.nonempty (completed_by_category rows)) eqn:Ec; [reflexivity |].
    destruct (completed_by_category rows); [reflexivity | discriminate Ec]. }
  rewrite Hpref; split; [apply top3_rows_ranked |]; split; [apply top3_rows_ranked |].
  apply avoided_facts.
Qed.

(** [_analyze_watch_history]'s two dicts: distinct categories, each
    mapped to the number of completed (resp. skipped) rows of that
    category ("UNKNOWN" for a row without cached content); a category
    appears exactly when such a row exists. *)
Theorem analyze_watch_history_counts (rows : list (WatchRow * option CacheEntry)) :
  (NoDup (map fst (completed_by_category rows))
   /\ (forall k, dict_get0 k (completed_by_category rows) = rows_with w_completed k rows)
   /\ (forall k, In k (map fst (completed_by_category rows))
        <-> exists r, In r rows /\ w_completed (fst r) = true /\ row_category (snd r) = k))
  /\ (NoDup (map fst (skipped_by_category rows))
   /\ (forall k, dict_get0 k (skipped_by_category rows) = rows_with w_was_skipped k rows)
   /\ (forall k, In k (map fst (skipped_by_category rows))
        <-> exists r, In r rows /\ w_was_skipped (fst r) = true /\ row_category (snd r) = k)).
Proof. split; apply count_rows_facts. Qed.

(** With [disliked] holding the categories [_analyze_feedback] collects,
    the category of every "dislike" or "not_interested" feedback on a
    cached video with a non-empty category is avoided. *)
Theorem feedback_dislike_avoided (rows : list (WatchRow * option CacheEntry))
    (feedback : list (FeedbackRow * option CacheEntry)) (disliked : list string) :
  (forall c, In c disliked <-> In c (dislike_candidates feedback)) ->
  forall f c, In (f, Some c) feedback -> ce_category c <> "" ->
  (f_feedback_type f = "dislike" \/ f_feedback_type f = "not_interested") ->
  In (ce_category c) (avoided_categories (get_user_preferences rows disliked)).
Proof.
  intros Hset f c Hin Hne Ht.
  destruct (avoided_facts rows disliked) as (_ & _ & Hincl).
  apply Hincl, Hset; unfold dislike_candidates; apply in_flat_map.
  exists (f, Some c); split; [exact Hin |]; cbn [fst snd].
  apply String.eqb_neq in Hne; rewrite Hne.
  destruct Ht as [-> | ->]; left; reflexivity.
Qed.

Definition sample_feedback : list (FeedbackRow * option CacheEntry) :=
  [(mkFeedbackRow "dislike", Some (mkEntry "v1" "GAMING" 0.8 0.9 0.1 0.3 0));
   (mkFeedbackRow "like", Some (mkEntry "v2" "EDUCATION" 0.8 0.1 0.8 0.1 0))].

Lemma feedback_dislike_avoided_witness :
  In "GAMING" (avoided_categories (get_user_preferences [] ["GAMING"])).
Proof.
  apply (feedback_dislike_avoided [] sample_feedback ["GAMING"]) with
    (f := mkFeedbackRow "dislike") (c := mkEntry "v1" "GAMING" 0.8 0.9 0.1 0.3 0).
  - intros c; vm_compute; tauto.
  - left; reflexivity.
  - discriminate.
  - left; reflexivity.
Defined.

End PrefFacts.
